(** * A shallow embedding of the reinforcement-learning trader

    The repository has two source files: [agent.py] (the [DRQN] agent, all
    of whose methods are [pass]) and [environment.py] (the [OrderSpace]
    action space and the gym-style [Market] environment).

    Modelling conventions.
    - Python floats are idealised as rationals ([Q]); the code under study
      only moves numbers around, negates the constant [1], and forms
      [low + (high - low) * u] and [sign * (1 - u)].  Where a number must
      fit a C double ([np.random.uniform]), the finite range of doubles is
      kept: a bound outside it raises [OverflowError].
    - A method is a computation in the monad [py S], which threads the
      mutable object [S] and may raise a Python exception.  A raised
      exception keeps the mutations performed before it, as in Python.
    - [numpy], [gym] and [ccxt] are external libraries.  The few functions
      the program calls are modelled after their documented behaviour in
      the modules [np], [gym] and [ccxt] below. *)

From Stdlib Require Import String ZArith QArith Qround Bool Arith Lia Lqa.
From Stdlib Require Import List Sorted.
Import ListNotations.

Local Open Scope nat_scope.
Local Open Scope list_scope.

(** ** Python exceptions and the method monad *)

Inductive exn : Type :=
| NotImplementedError
| AxisError          (* numpy.AxisError, a ValueError and IndexError *)
| ValueError
| KeyError
| GymError           (* gym.error.Error: an invalid seed *)
| UnsupportedMode    (* gym.error.UnsupportedMode *)
| ExchangeError      (* any error raised by the exchange library *)
| OverflowError.     (* a number outside the finite range of a double *)

Definition result (A : Type) : Type := (exn + A)%type.

Definition py (S A : Type) : Type := S -> S * result A.

Definition ret {S A : Type} (a : A) : py S A := fun s => (s, inr a).

Definition raise {S A : Type} (e : exn) : py S A := fun s => (s, inl e).

Definition bind {S A B : Type} (m : py S A) (k : A -> py S B) : py S B :=
  fun s =>
    match m s with
    | (s', inl e) => (s', inl e)
    | (s', inr a) => k a s'
    end.

Definition get {S : Type} : py S S := fun s => (s, inr s).

Definition modify {S : Type} (f : S -> S) : py S unit := fun s => (f s, inr tt).

(** A pure library call that may raise. *)
Definition lift {S A : Type} (r : result A) : py S A := fun s => (s, r).

Declare Scope py_scope.
Delimit Scope py_scope with py.
Notation "x <- m ;; k" := (bind m (fun x => k))
  (at level 61, m at next level, right associativity) : py_scope.
Notation "m ;; k" := (bind m (fun _ => k))
  (at level 61, right associativity) : py_scope.

(** Python values that cross a method boundary untyped. *)
#[warnings="-register-all"]
Inductive pyobj : Type :=
| PyNone
| PyBool (b : bool)
| PyInt (z : Z)
| PyFloat (q : Q)
| PyStr (s : string)
| PyList (l : list pyobj).

(** ** numpy *)

Module np.

(** The arrays the program builds have one or two dimensions.  A
    one-dimensional array arises only from [np.array] applied to an empty
    list (shape [(0,)]) or to rows of unequal length (an object array
    holding the rows).  A two-dimensional array carries its shape, which
    the rows alone do not determine when there are none. *)
Inductive ndarray : Type :=
| Arr1 (items : list (list Q))
| Arr2 (nrows ncols : nat) (rows : list (list Q)).

Definition ndim (a : ndarray) : nat :=
  match a with
  | Arr1 _ => 1
  | Arr2 _ _ _ => 2
  end.

Definition shape (a : ndarray) : list nat :=
  match a with
  | Arr1 items => [length items]
  | Arr2 n k _ => [n; k]
  end.

(** The common length of the rows of a non-empty list, if they have one. *)
Definition row_length (l : list (list Q)) : option nat :=
  match l with
  | [] => None
  | r :: rest =>
      if forallb (fun r' => length r' =? length r) rest
      then Some (length r) else None
  end.

(** [np.array(l)] for a list of lists of numbers. *)
Definition array (l : list (list Q)) : ndarray :=
  match row_length l with
  | Some k => Arr2 (length l) k l
  | None => Arr1 l
  end.

(** [np.ones((n, k))]. *)
Definition ones (shp : nat * nat) : ndarray :=
  Arr2 (fst shp) (snd shp) (repeat (repeat 1%Q (snd shp)) (fst shp)).

(** [c * a] for a scalar [c]. *)
Definition multiply (c : Q) (a : ndarray) : ndarray :=
  match a with
  | Arr1 items => Arr1 (map (map (Qmult c)) items)
  | Arr2 n k rows => Arr2 n k (map (map (Qmult c)) rows)
  end.

(** Row-wise juxtaposition of two lists of rows of equal length. *)
Fixpoint hstack (ra rb : list (list Q)) : list (list Q) :=
  match ra, rb with
  | a :: ra', b :: rb' => (a ++ b) :: hstack ra' rb'
  | _, _ => []
  end.

(** [np.concatenate((a, b), axis)].  The axis is checked against the
    first array, then the dimensions and the other extents are compared. *)
Definition concatenate (ab : ndarray * ndarray) (axis : nat) : result ndarray :=
  match fst ab with
  | Arr1 ia =>
      match axis with
      | 0 =>
          match snd ab with
          | Arr1 ib => inr (Arr1 (ia ++ ib))
          | Arr2 _ _ _ => inl ValueError
          end
      | _ => inl AxisError
      end
  | Arr2 n k ra =>
      match axis with
      | 0 =>
          match snd ab with
          | Arr1 _ => inl ValueError
          | Arr2 n' k' rb =>
              if k =? k' then inr (Arr2 (n + n') k (ra ++ rb))
              else inl ValueError
          end
      | 1 =>
          match snd ab with
          | Arr1 _ => inl ValueError
          | Arr2 n' k' rb =>
              if n =? n' then inr (Arr2 n (k + k') (hstack ra rb))
              else inl ValueError
          end
      | _ => inl AxisError
      end
  end.

(** [np.flip(m, axis)]. *)
Definition flip (m : ndarray) (axis : nat) : result ndarray :=
  match m, axis with
  | Arr1 items, 0 => inr (Arr1 (rev items))
  | Arr2 n k rows, 0 => inr (Arr2 n k (rev rows))
  | Arr2 n k rows, 1 => inr (Arr2 n k (map (@rev Q) rows))
  | _, _ => inl AxisError
  end.

(** [np.flipud(m)] is [m[::-1, ...]]. *)
Definition flipud (m : ndarray) : result ndarray := flip m 0.

(** Column [j] of a list of rows. *)
Definition column (j : nat) (rows : list (list Q)) : list Q :=
  map (fun r => nth j r 0%Q) rows.

(** [np.transpose(m)]. *)
Definition transpose (m : ndarray) : ndarray :=
  match m with
  | Arr1 items => Arr1 items
  | Arr2 n k rows => Arr2 k n (map (fun j => column j rows) (seq 0 k))
  end.

(** [np.rot90(m, k)] in the plane of the first two axes:
    [k = 1] is [transpose(flip(m, 1))], [k = 2] is [flip(flip(m, 0), 1)]
    and [k = 3] is [flip(transpose(m), 1)]. *)
Definition rot90 (m : ndarray) (k : nat) : result ndarray :=
  if ndim m <? 2 then inl ValueError
  else
    match k mod 4 with
    | 0 => inr m
    | 1 =>
        match flip m 1 with
        | inr f => inr (transpose f)
        | inl e => inl e
        end
    | 2 =>
        match flip m 0 with
        | inr f => flip f 1
        | inl e => inl e
        end
    | _ => flip (transpose m) 1
    end.

(** The global generator behind [np.random].  Its stream of raw outputs
    is arbitrary; [pos] counts the outputs consumed so far. *)
Module random.

Record RandomState : Type := mkRandomState {
  raw : nat -> Z;
  pos : nat
}.

Definition next_raw : py RandomState Z :=
  fun g => (mkRandomState (raw g) (S (pos g)), inr (raw g (pos g))).

(** [random_sample()]: a 53-bit integer divided by 2^53, in [0, 1). *)
Definition random_sample : py RandomState Q :=
  (r <- next_raw ;;
   ret (Qmake (r mod 2 ^ 53) (2 ^ 53)))%py.

(** The numbers that convert to a finite double: those of magnitude
    below 2^1024 - 2^970, the point from which rounding to nearest gives
    infinity. *)
Definition float_limit : Q := inject_Z (2 ^ 1024 - 2 ^ 970).

Definition in_float_range (x : Q) : bool :=
  negb (Qle_bool float_limit x) && negb (Qle_bool x (- float_limit)).

(** [uniform(low, high)] is [low + (high - low) * random_sample()].  Both
    bounds are converted to doubles and their difference must be finite,
    or [OverflowError] is raised before anything is drawn. *)
Definition uniform (low high : Q) : py RandomState Q :=
  if in_float_range low && in_float_range high && in_float_range (high - low)
  then
    (u <- random_sample ;;
     ret (low + (high - low) * u)%Q)%py
  else raise OverflowError.

(** [choice(a)]: a uniformly drawn index into [a]. *)
Definition choice {A : Type} (a : list A) : py RandomState A :=
  (r <- next_raw ;;
   match nth_error a (Z.to_nat (r mod Z.of_nat (length a))) with
   | Some x => ret x
   | None => raise ValueError
   end)%py.

End random.

End np.

(** ** ccxt: the exchange *)

Module ccxt.

(** The two keys of the order-book dictionary that the program reads;
    each is a list of entries, an entry being a list of numbers
    ([[price, quantity]] for the exchanges the library normalises). *)
Record OrderBook : Type := mkOrderBook {
  bids : list (list Q);
  asks : list (list Q)
}.

Inductive call : Type :=
| load_markets_call
| fetch_order_book_call (symbol : string).

(** An exchange object seen from the program: what it will answer (the
    answer to the [i]-th request may differ from the one before), and the
    log of the methods invoked on it so far. *)
Record Exchange : Type := mkExchange {
  markets_reply : result (list string);
  book_reply : nat -> string -> result OrderBook;
  calls : list call
}.

Definition load_markets : py Exchange (list string) :=
  fun ex =>
    (mkExchange (markets_reply ex) (book_reply ex)
                (calls ex ++ [load_markets_call]),
     markets_reply ex).

Definition fetch_order_book (symbol : string) : py Exchange OrderBook :=
  fun ex =>
    (mkExchange (markets_reply ex) (book_reply ex)
                (calls ex ++ [fetch_order_book_call symbol]),
     book_reply ex (List.length (calls ex)) symbol).

End ccxt.

(** ** gym *)

Module gym.

(** A bound of a [Box]: a number or [np.inf]. *)
Inductive bound : Type :=
| Finite (q : Q)
| Inf.

Record Box : Type := mkBox {
  low : list bound;
  high : list bound
}.

Module seeding.

(** A [RandomState] that was seeded from [hash_seed(seed)]; the model
    keeps the seed it was derived from. *)
Record RandomState : Type := mkRandomState {
  seeded_from : Z
}.

(** [create_seed(a)]: the given integer reduced to 8 bytes, or 8 bytes
    of operating-system entropy ([urandom]) when no seed is given. *)
Definition create_seed (urandom : Z) (a : option Z) : Z :=
  match a with
  | None => urandom mod 2 ^ 64
  | Some s => s mod 2 ^ 64
  end.

(** [seeding.np_random(seed)]: rejects a negative seed, otherwise
    returns the generator and the seed it was created from. *)
Definition np_random (urandom : Z) (seed : option Z)
  : result (RandomState * Z) :=
  match seed with
  | Some s =>
      if (s <? 0)%Z then inl GymError
      else let s' := create_seed urandom seed in
           inr (mkRandomState s', s')
  | None =>
      let s' := create_seed urandom seed in
      inr (mkRandomState s', s')
  end.

End seeding.

End gym.

(** ** agent.py *)

Module DRQN.

(** The agent has no attribute. *)
Record t : Type := mk { }.

Definition __init__ : t := mk.

Definition set_model (model : pyobj) : py t pyobj := ret PyNone.

Definition train (n_epochs batch_size : Z) : py t pyobj := ret PyNone.

Definition play (n_epochs : Z) : py t pyobj := ret PyNone.

End DRQN.

(** ** environment.py: the action space *)

Module OrderSpace.

Record t : Type := mk {
  max_amount : Q;
  place_order : option bool;
  type : option string;
  side : option string;
  amount : option Q;
  price : option Q
}.

(** The class attribute [side_sign = {'buy': -1, 'sell': 1}]. *)
Definition side_sign : list (string * Z) :=
  [("buy"%string, (-1)%Z); ("sell"%string, 1%Z)].

(** Dictionary subscription [d[k]]. *)
Fixpoint getitem (d : list (string * Z)) (k : string) : result Z :=
  match d with
  | [] => inl KeyError
  | (k', v) :: d' => if String.eqb k' k then inr v else getitem d' k
  end.

Definition __init__ (max_amount : Q) : t :=
  mk max_amount None None None None None.

(** The state [sample] works on: the global generator of [np.random]
    and the object itself. *)
Definition world : Type := (np.random.RandomState * t)%type.

(** Runs a draw on the generator component. *)
Definition draw {A : Type} (m : py np.random.RandomState A) : py world A :=
  fun w =>
    match m (fst w) with
    | (g', r) => ((g', snd w), r)
    end.

Definition setattr (f : t -> t) : py world unit :=
  modify (fun w => (fst w, f (snd w))).

Definition sample : py world pyobj :=
  (po <- draw (np.random.choice [true; false]) ;;
   setattr (fun s => mk (max_amount s) (Some po) (type s) (side s)
                        (amount s) (price s)) ;;
   ty <- draw (np.random.choice ["market"%string; "limit"%string]) ;;
   setattr (fun s => mk (max_amount s) (place_order s) (Some ty) (side s)
                        (amount s) (price s)) ;;
   sd <- draw (np.random.choice ["buy"%string; "sell"%string]) ;;
   setattr (fun s => mk (max_amount s) (place_order s) (type s) (Some sd)
                        (amount s) (price s)) ;;
   w <- get ;;
   am <- draw (np.random.uniform 0 (max_amount (snd w))) ;;
   setattr (fun s => mk (max_amount s) (place_order s) (type s) (side s)
                        (Some am) (price s)) ;;
   sg <- lift (getitem side_sign sd) ;;
   u <- draw np.random.random_sample ;;
   let pr := (inject_Z sg * (1 - u))%Q in
   setattr (fun s => mk (max_amount s) (place_order s) (type s) (side s)
                        (amount s) (Some pr)) ;;
   ret (PyList [PyBool po; PyStr ty; PyStr sd; PyFloat am; PyFloat pr]))%py.

Definition contains (x : pyobj) : py t pyobj :=
  raise NotImplementedError.

Definition to_jsonable (sample_n : pyobj) : py t pyobj :=
  raise NotImplementedError.

Definition from_jsonable (sample_n : pyobj) : py t pyobj :=
  raise NotImplementedError.

End OrderSpace.

(** ** environment.py: the environment *)

Module Market.

Record t : Type := mk {
  exchange : ccxt.Exchange;
  markets : list string;
  symbol : string;
  max_amount : Q;
  action_space : OrderSpace.t;
  observation_space : gym.Box;
  np_random : option gym.seeding.RandomState;   (* unset before [_seed] *)
  state : option np.ndarray                     (* unset before [_reset] *)
}.

Definition metadata : list (string * list string) :=
  [("render.modes"%string, ["human"%string; "ansi"%string])].

Definition set_exchange (ex : ccxt.Exchange) (self : t) : t :=
  mk ex (markets self) (symbol self) (max_amount self) (action_space self)
     (observation_space self) (np_random self) (state self).

Definition set_np_random (g : gym.seeding.RandomState) (self : t) : t :=
  mk (exchange self) (markets self) (symbol self) (max_amount self)
     (action_space self) (observation_space self) (Some g) (state self).

Definition set_state (a : np.ndarray) (self : t) : t :=
  mk (exchange self) (markets self) (symbol self) (max_amount self)
     (action_space self) (observation_space self) (np_random self) (Some a).

(** A method call on [self.exchange]. *)
Definition on_exchange {A : Type} (m : py ccxt.Exchange A) : py t A :=
  fun self =>
    match m (exchange self) with
    | (ex', r) => (set_exchange ex' self, r)
    end.

Definition _step (action : pyobj) : py t pyobj := ret PyNone.

Definition _reset : py t np.ndarray :=
  (self <- get ;;
   order_book <- on_exchange (ccxt.fetch_order_book (symbol self)) ;;
   let bids := np.array (ccxt.bids order_book) in
   let asks := np.array (ccxt.asks order_book) in
   let bid_sign :=
     np.multiply (-1) (np.ones (length (ccxt.bids order_book), 1)) in
   let ask_sign := np.ones (length (ccxt.asks order_book), 1) in
   bids_with_sign <- lift (np.concatenate (bids, bid_sign) 1) ;;
   asks_with_sign <- lift (np.concatenate (asks, ask_sign) 1) ;;
   rotated <- lift (np.rot90 bids_with_sign 3) ;;
   bids_with_sign <- lift (np.flipud rotated) ;;
   asks_with_sign <- lift (np.rot90 asks_with_sign 1) ;;
   st <- lift (np.concatenate (bids_with_sign, asks_with_sign) 1) ;;
   modify (set_state st) ;;
   ret st)%py.

(** [super(Market, self).render(mode=mode)]: reached only with a mode
    that is neither ['ansi'] nor ['human'], hence not among the render
    modes of [metadata], which [gym.Env.render] rejects. *)
Definition _render (mode : string) (close : bool) : py t pyobj :=
  if String.eqb mode "ansi" then raise NotImplementedError
  else if String.eqb mode "human" then raise NotImplementedError
  else raise UnsupportedMode.

Definition _close : py t pyobj := ret PyNone.

(** [urandom] is what the operating system's entropy source would
    deliver, should [seeding.np_random] consult it. *)
Definition _seed (urandom : Z) (seed : option Z) : py t (list Z) :=
  (r <- lift (gym.seeding.np_random urandom seed) ;;
   modify (set_np_random (fst r)) ;;
   ret [snd r])%py.

(** [gym.Env.seed] and [gym.Env.reset] forward to the underscore
    methods. *)
Definition seed (urandom : Z) (seed : option Z) : py t (list Z) :=
  _seed urandom seed.

Definition reset : py t np.ndarray := _reset.

(** The constructor.  It returns the exchange as the calls left it, and
    the new object unless one of the calls raised. *)
Definition __init__ (urandom : Z) (exchange : ccxt.Exchange) (symbol : string)
  : ccxt.Exchange * result t :=
  match ccxt.load_markets exchange with
  | (ex, inl e) => (ex, inl e)
  | (ex, inr mkts) =>
      let max_amount := 1%Q in
      let self :=
        mk ex mkts symbol max_amount
           (OrderSpace.__init__ max_amount)
           (gym.mkBox [gym.Finite 0; gym.Finite 0; gym.Finite 0]
                      [gym.Inf; gym.Inf; gym.Inf])
           None None in
      match (seed urandom None ;; reset)%py self with
      | (self', inl e) => (Market.exchange self', inl e)
      | (self', inr _) => (Market.exchange self', inr self')
      end
  end.

End Market.

(** ** Vocabulary of the specification *)

(** An order-book entry [[price, quantity]]. *)
Definition price (e : list Q) : Q := nth 0 e 0%Q.
Definition quantity (e : list Q) : Q := nth 1 e 0%Q.

Definition pairs (l : list (list Q)) : Prop :=
  Forall (fun e => length e = 2) l.

(** Non-empty bids and asks, each a [[price, quantity]] pair. *)
Definition well_formed (b : ccxt.OrderBook) : Prop :=
  ccxt.bids b <> [] /\ ccxt.asks b <> [] /\
  pairs (ccxt.bids b) /\ pairs (ccxt.asks b).

(** All entries, bids and asks alike, have [k] numbers. *)
Definition uniform_width (k : nat) (b : ccxt.OrderBook) : Prop :=
  Forall (fun e => length e = k) (ccxt.bids b) /\
  Forall (fun e => length e = k) (ccxt.asks b).

(** What the exchange of [self] answers to the next [fetch_order_book]. *)
Definition next_book (self : Market.t) : result ccxt.OrderBook :=
  ccxt.book_reply (Market.exchange self)
                  (length (ccxt.calls (Market.exchange self)))
                  (Market.symbol self).

(** The columns of a two-dimensional array, left to right, each read from
    the top row down. *)
Definition columns (a : np.ndarray) : list (list Q) :=
  match np.transpose a with
  | np.Arr1 items => items
  | np.Arr2 _ _ rows => rows
  end.

Definition rows (a : np.ndarray) : list (list Q) :=
  match a with
  | np.Arr1 items => items
  | np.Arr2 _ _ rs => rs
  end.

(** The expected columns: the bids from last to first, then the asks. *)
Definition labelled (b : ccxt.OrderBook) : list (list Q) :=
  map (fun e => [(-1)%Q; quantity e; price e]) (rev (ccxt.bids b)) ++
  map (fun e => [1%Q; quantity e; price e]) (ccxt.asks b).

(** An exchange that answers every request with [b], and an environment
    that holds it: used to run [_reset] on a given book. *)
Definition always (b : ccxt.OrderBook) : ccxt.Exchange :=
  ccxt.mkExchange (inr []) (fun _ _ => inr b) [].

Definition probe (b : ccxt.OrderBook) : Market.t :=
  Market.mk (always b) [] "BTC/USD" 1 (OrderSpace.__init__ 1)
            (gym.mkBox [] []) None None.

(** The observation [_reset] computes from a fetched book. *)
Definition observe (b : ccxt.OrderBook) : result np.ndarray :=
  snd (Market._reset (probe b)).

Definition book1 : ccxt.OrderBook :=
  ccxt.mkOrderBook [[10; 2]; [9; 5]]%Q [[11; 3]; [12; 1]; [13; 4]]%Q.

Definition env1 : Market.t := probe book1.

(** The environment once [fetch_order_book] has been logged. *)
Definition fetched (self : Market.t) : Market.t :=
  fst (Market.on_exchange (ccxt.fetch_order_book (Market.symbol self)) self).

(** Columns that list the price first: every entry appears as a
    column that lists the price first, then the quantity, then the sign. *)
Definition price_first_columns (b : ccxt.OrderBook) (arr : np.ndarray) : Prop :=
  (forall e, In e (ccxt.bids b) -> In (e ++ [(-1)%Q]) (columns arr)) /\
  (forall e, In e (ccxt.asks b) -> In (e ++ [1%Q]) (columns arr)).

(** A method raises [e] when run on [s]. *)
Definition raises {S A : Type} (m : py S A) (s : S) (e : exn) : Prop :=
  snd (m s) = inl e.

(** A call log that holds nothing but [fetch_order_book(sym)]. *)
Definition only_fetches (sym : string) (log : list ccxt.call) : Prop :=
  Forall (fun c => c = ccxt.fetch_order_book_call sym) log.

(** A second environment: another symbol, an exchange with a history, a
    generator and a previous state, and the same book coming next. *)
Definition env2 : Market.t :=
  Market.mk
    (ccxt.mkExchange (inr ["ETH/USD"%string]) (fun _ _ => inr book1)
                     [ccxt.load_markets_call;
                      ccxt.fetch_order_book_call "ETH/USD"])
    ["ETH/USD"%string] "ETH/USD" 1 (OrderSpace.__init__ 1)
    (gym.mkBox [gym.Finite 0] [gym.Inf])
    (Some (gym.seeding.mkRandomState 7))
    (Some (np.Arr2 1 1 [[7%Q]])).

(** Entries of three numbers, as exchanges that add a timestamp or an
    order count to each level deliver them. *)
Definition book3 : ccxt.OrderBook :=
  ccxt.mkOrderBook [[1; 2; 7]]%Q [[3; 4; 8]]%Q.

(** Books without bids, and without asks. *)
Definition book_no_bids : ccxt.OrderBook :=
  ccxt.mkOrderBook [] [[11; 3]]%Q.

Definition book_no_asks : ccxt.OrderBook :=
  ccxt.mkOrderBook [[10; 2]]%Q [].

(** An environment that holds a previous observation and is about to
    fetch a book without asks. *)
Definition env3 : Market.t :=
  Market.set_state (np.Arr2 1 1 [[7%Q]]) (probe book_no_asks).

(** The generator of [np.random] after one more draw. *)
Definition advance (g : np.random.RandomState) : np.random.RandomState :=
  np.random.mkRandomState (np.random.raw g) (S (np.random.pos g)).

(** A generator whose [i]-th raw output is [i] times a fixed odd number. *)
Definition generator1 : np.random.RandomState :=
  np.random.mkRandomState (fun i => (Z.of_nat i * 1234567891234567)%Z) 0.

(** The columns expected for entries of any width: each entry reversed,
    under its sign; the bids from last to first, then the asks. *)
Definition signed_columns (b : ccxt.OrderBook) : list (list Q) :=
  map (fun e => (-1)%Q :: rev e) (rev (ccxt.bids b)) ++
  map (fun e => 1%Q :: rev e) (ccxt.asks b).

(** The exchange once [load_markets] has been logged. *)
Definition loaded (ex : ccxt.Exchange) : ccxt.Exchange :=
  fst (ccxt.load_markets ex).

(** The exchange once [load_markets] and then [fetch_order_book(sym)] have
    been logged: how a constructor that got past [load_markets] leaves it. *)
Definition opened (ex : ccxt.Exchange) (sym : string) : ccxt.Exchange :=
  fst (ccxt.fetch_order_book sym (loaded ex)).

(** What the exchange answers to the constructor's [fetch_order_book]. *)
Definition first_book (ex : ccxt.Exchange) (sym : string)
  : result ccxt.OrderBook :=
  ccxt.book_reply ex (length (ccxt.calls ex) + 1) sym.

(** The environment a successful constructor returns. *)
Definition constructed (urandom : Z) (ex : ccxt.Exchange) (sym : string)
    (mkts : list string) (arr : np.ndarray) : Market.t :=
  Market.mk (opened ex sym) mkts sym 1 (OrderSpace.__init__ 1)
            (gym.mkBox [gym.Finite 0; gym.Finite 0; gym.Finite 0]
                       [gym.Inf; gym.Inf; gym.Inf])
            (Some (gym.seeding.mkRandomState (urandom mod 2 ^ 64)))
            (Some arr).

(** Bids of two numbers against asks of three. *)
Definition book_mixed : ccxt.OrderBook :=
  ccxt.mkOrderBook [[10; 2]]%Q [[11; 3; 8]]%Q.

(** An exchange whose requests all fail, and an environment holding it
    together with a previous observation. *)
Definition broken : ccxt.Exchange :=
  ccxt.mkExchange (inl ExchangeError) (fun _ _ => inl ExchangeError) [].

Definition env4 : Market.t :=
  Market.mk broken [] "BTC/USD" 1 (OrderSpace.__init__ 1)
            (gym.mkBox [] []) None (Some (np.Arr2 1 1 [[7%Q]])).

(** An action space whose bound, 2^1024, exceeds every finite double. *)
Definition huge_space : OrderSpace.t :=
  OrderSpace.__init__ (inject_Z (2 ^ 1024)).

(** The spaces that calls of the class can produce: a constructed one,
    and what [sample] leaves of such a space, whether it returns or
    raises. *)
Inductive reachable : OrderSpace.t -> Prop :=
| reach_init (m : Q) : reachable (OrderSpace.__init__ m)
| reach_sample (g : np.random.RandomState) (s : OrderSpace.t) :
    reachable s -> reachable (snd (fst (OrderSpace.sample (g, s)))).

(** An action space that already holds a sampled action. *)
Definition space1 : OrderSpace.t :=
  OrderSpace.mk 1 (Some false) (Some "market"%string) (Some "sell"%string)
                (Some (1 # 2)) (Some (1 # 4)).

(** * Properties *)

(** ** numpy on two-dimensional arrays *)

Section Numpy.

Lemma row_length_uniform (k : nat) (l : list (list Q)) :
  l <> [] -> Forall (fun e => length e = k) l -> np.row_length l = Some k.
Proof.
  destruct l as [|r rest]; [congruence|].
  intros _ H. inversion H as [|? ? Hr Hrest]; subst. simpl.
  replace (forallb _ rest) with true; [reflexivity|].
  symmetry. apply forallb_forall. intros x Hx.
  rewrite Forall_forall in Hrest. rewrite (Hrest x Hx).
  apply Nat.eqb_refl.
Qed.

Lemma row_length_inv (k : nat) (l : list (list Q)) :
  np.row_length l = Some k -> l <> [] /\ Forall (fun e => length e = k) l.
Proof.
  destruct l as [|r rest]; simpl; [discriminate|].
  destruct (forallb _ rest) eqn:E; [|discriminate].
  intros [= <-]. split; [discriminate|].
  constructor; [reflexivity|].
  apply Forall_forall. intros x Hx.
  rewrite forallb_forall in E. now apply Nat.eqb_eq, E.
Qed.

Lemma array_uniform (k : nat) (l : list (list Q)) :
  l <> [] -> Forall (fun e => length e = k) l ->
  np.array l = np.Arr2 (length l) k l.
Proof.
  intros Hne Hk. unfold np.array.
  now rewrite (row_length_uniform k l Hne Hk).
Qed.

Lemma array_cases (l : list (list Q)) :
  (np.array l = np.Arr1 l /\ np.row_length l = None) \/
  (exists k, np.array l = np.Arr2 (length l) k l /\ np.row_length l = Some k).
Proof.
  unfold np.array. destruct (np.row_length l) as [k|]; [right|left]; eauto.
Qed.

Lemma array_nil : np.array [] = np.Arr1 [].
Proof. reflexivity. Qed.

Lemma minus_ones (n : nat) :
  np.multiply (-1) (np.ones (n, 1)) = np.Arr2 n 1 (repeat [(-1)%Q] n).
Proof.
  unfold np.ones, np.multiply. simpl. f_equal.
  now rewrite map_repeat.
Qed.

Lemma ones_column (n : nat) : np.ones (n, 1) = np.Arr2 n 1 (repeat [1%Q] n).
Proof. reflexivity. Qed.

Lemma hstack_label (c : Q) (l : list (list Q)) :
  np.hstack l (repeat [c] (length l)) = map (fun e => e ++ [c]) l.
Proof.
  induction l as [|e l IH]; simpl; [reflexivity|now rewrite IH].
Qed.

Lemma hstack_length (ra rb : list (list Q)) :
  length ra = length rb -> length (np.hstack ra rb) = length ra.
Proof.
  revert rb. induction ra as [|a ra IH]; intros [|b rb]; simpl; try easy.
  intros [= H]. now rewrite IH.
Qed.

Lemma concatenate_columns (n k k' : nat) (ra rb : list (list Q)) :
  np.concatenate (np.Arr2 n k ra, np.Arr2 n k' rb) 1
  = inr (np.Arr2 n (k + k') (np.hstack ra rb)).
Proof. unfold np.concatenate. cbn [fst snd]. now rewrite Nat.eqb_refl. Qed.

Lemma concatenate_Arr1 (items : list (list Q)) (b : np.ndarray) :
  np.concatenate (np.Arr1 items, b) 1 = inl AxisError.
Proof. reflexivity. Qed.

Lemma rot90_once (n k : nat) (rs : list (list Q)) :
  np.rot90 (np.Arr2 n k rs) 1
  = inr (np.Arr2 k n (map (fun j => np.column j (map (@rev Q) rs)) (seq 0 k))).
Proof. reflexivity. Qed.

Lemma rot90_thrice (n k : nat) (rs : list (list Q)) :
  np.rot90 (np.Arr2 n k rs) 3
  = inr (np.Arr2 k n (map (@rev Q) (map (fun j => np.column j rs) (seq 0 k)))).
Proof. reflexivity. Qed.

Lemma flipud_rows (n k : nat) (rs : list (list Q)) :
  np.flipud (np.Arr2 n k rs) = inr (np.Arr2 n k (rev rs)).
Proof. reflexivity. Qed.

End Numpy.

(** ** The array pipeline of [_reset] *)

Section Reset.

(** [_reset] consults the exchange once, and what it computes depends on
    the fetched book only. *)
Lemma reset_factor (self : Market.t) (b : ccxt.OrderBook) :
  next_book self = inr b ->
  Market._reset self
  = match observe b with
    | inl e => (fetched self, inl e)
    | inr a => (Market.set_state a (fetched self), inr a)
    end.
Proof.
  unfold next_book, observe, fetched. intros H.
  unfold Market._reset, bind, get, lift, modify, ret,
    Market.on_exchange, ccxt.fetch_order_book.
  cbn [fst snd probe always Market.exchange Market.symbol
       ccxt.book_reply ccxt.calls ccxt.markets_reply].
  rewrite H.
  destruct (np.concatenate (np.array (ccxt.bids b), _) 1) as [e|bw];
    [reflexivity|].
  destruct (np.concatenate (np.array (ccxt.asks b), _) 1) as [e|aw];
    [reflexivity|].
  destruct (np.rot90 bw 3) as [e|r]; [reflexivity|].
  destruct (np.flipud r) as [e|bf]; [reflexivity|].
  destruct (np.rot90 aw 1) as [e|ar]; [reflexivity|].
  destruct (np.concatenate (bf, ar) 1) as [e|st]; reflexivity.
Qed.

Lemma reset_fetch_failed (self : Market.t) (e : exn) :
  next_book self = inl e ->
  Market._reset self = (fetched self, inl e).
Proof.
  unfold next_book, fetched. intros H.
  unfold Market._reset, bind, get, Market.on_exchange,
    ccxt.fetch_order_book.
  cbn [fst snd Market.exchange Market.symbol].
  now rewrite H.
Qed.

Lemma fetched_calls (self : Market.t) :
  ccxt.calls (Market.exchange (fetched self))
  = ccxt.calls (Market.exchange self)
    ++ [ccxt.fetch_order_book_call (Market.symbol self)].
Proof. reflexivity. Qed.

Lemma fetched_state (self : Market.t) :
  Market.state (fetched self) = Market.state self.
Proof. reflexivity. Qed.

(** The pipeline unfolded on a book. *)
Lemma observe_unfold (b : ccxt.OrderBook) :
  observe b
  = match np.concatenate
            (np.array (ccxt.bids b),
             np.multiply (-1) (np.ones (length (ccxt.bids b), 1))) 1 with
    | inl e => inl e
    | inr bw =>
        match np.concatenate
                (np.array (ccxt.asks b),
                 np.ones (length (ccxt.asks b), 1)) 1 with
        | inl e => inl e
        | inr aw =>
            match np.rot90 bw 3 with
            | inl e => inl e
            | inr r =>
                match np.flipud r with
                | inl e => inl e
                | inr bf =>
                    match np.rot90 aw 1 with
                    | inl e => inl e
                    | inr ar => np.concatenate (bf, ar) 1
                    end
                end
            end
        end
    end.
Proof.
  unfold observe, Market._reset, bind, get, lift, modify, ret,
    Market.on_exchange, ccxt.fetch_order_book.
  cbn [fst snd probe always Market.exchange Market.symbol
       ccxt.book_reply ccxt.calls ccxt.markets_reply].
  destruct (np.concatenate (np.array (ccxt.bids b), _) 1) as [e|bw];
    [reflexivity|].
  destruct (np.concatenate (np.array (ccxt.asks b), _) 1) as [e|aw];
    [reflexivity|].
  destruct (np.rot90 bw 3) as [e|r]; [reflexivity|].
  destruct (np.flipud r) as [e|bf]; [reflexivity|].
  destruct (np.rot90 aw 1) as [e|ar]; [reflexivity|].
  destruct (np.concatenate (bf, ar) 1) as [e|st]; reflexivity.
Qed.

(** The result on a book whose entries all have [k] numbers. *)
Lemma observe_uniform (k : nat) (b : ccxt.OrderBook) :
  ccxt.bids b <> [] -> ccxt.asks b <> [] -> uniform_width k b ->
  observe b
  = inr (np.Arr2 (k + 1) (length (ccxt.bids b) + length (ccxt.asks b))
           (np.hstack
              (rev (map (@rev Q)
                      (map (fun j => np.column j
                              (map (fun e => e ++ [(-1)%Q]) (ccxt.bids b)))
                           (seq 0 (k + 1)))))
              (map (fun j => np.column j
                      (map (@rev Q)
                         (map (fun e => e ++ [1%Q]) (ccxt.asks b))))
                   (seq 0 (k + 1))))).
Proof.
  intros Hb Ha [Hkb Hka]. rewrite observe_unfold.
  rewrite (array_uniform k _ Hb Hkb), (array_uniform k _ Ha Hka).
  rewrite minus_ones, ones_column.
  rewrite !concatenate_columns, !hstack_label.
  rewrite rot90_thrice, flipud_rows, rot90_once.
  now rewrite concatenate_columns.
Qed.

Lemma observe_no_bids (b : ccxt.OrderBook) :
  ccxt.bids b = [] -> observe b = inl AxisError.
Proof.
  intros H. rewrite observe_unfold, H. reflexivity.
Qed.

Lemma observe_no_asks (b : ccxt.OrderBook) :
  ccxt.asks b = [] -> observe b = inl AxisError.
Proof.
  intros H. rewrite observe_unfold, H.
  destruct (array_cases (ccxt.bids b)) as [[E _]|[k [E _]]]; rewrite E.
  - reflexivity.
  - now rewrite minus_ones, concatenate_columns.
Qed.

End Reset.

(** ** Books of [[price, quantity]] pairs *)

Section Pairs.

Lemma pair_entry (e : list Q) :
  length e = 2 -> e = [price e; quantity e].
Proof.
  destruct e as [|p [|q [|x e]]]; simpl; try discriminate. reflexivity.
Qed.

Lemma label_pairs (c : Q) (l : list (list Q)) :
  pairs l ->
  map (fun e => e ++ [c]) l = map (fun e => [price e; quantity e; c]) l.
Proof.
  intros H. apply map_ext_in. intros e He.
  unfold pairs in H. rewrite Forall_forall in H.
  now rewrite (pair_entry e (H e He)) at 1.
Qed.

Lemma column_map (j : nat) (f : list Q -> list Q) (l : list (list Q)) :
  np.column j (map f l) = map (fun e => nth j (f e) 0%Q) l.
Proof. unfold np.column. now rewrite map_map. Qed.

Lemma column_app (j : nat) (l l' : list (list Q)) :
  np.column j (l ++ l') = np.column j l ++ np.column j l'.
Proof. unfold np.column. apply map_app. Qed.

Lemma column_labelled (j : nat) (b : ccxt.OrderBook) :
  np.column j (labelled b)
  = rev (map (fun e => nth j [(-1)%Q; quantity e; price e] 0%Q) (ccxt.bids b))
    ++ map (fun e => nth j [1%Q; quantity e; price e] 0%Q) (ccxt.asks b).
Proof.
  unfold labelled. now rewrite column_app, !column_map, map_rev.
Qed.

(** On a well-formed book [_reset] computes three rows: the signs, the
    quantities and the prices of the columns [labelled b]. *)
Lemma observe_pairs (b : ccxt.OrderBook) :
  well_formed b ->
  observe b
  = inr (np.Arr2 3 (length (ccxt.bids b) + length (ccxt.asks b))
           [np.column 0 (labelled b);
            np.column 1 (labelled b);
            np.column 2 (labelled b)]).
Proof.
  intros (Hb & Ha & Pb & Pa).
  rewrite (observe_uniform 2 b Hb Ha (conj Pb Pa)).
  rewrite (label_pairs _ _ Pb), (label_pairs _ _ Pa).
  rewrite !column_labelled. cbn [Nat.add seq map rev app np.hstack].
  rewrite !map_map, !column_map. reflexivity.
Qed.

Lemma observe_succeeds_inv (b : ccxt.OrderBook) (a : np.ndarray) :
  observe b = inr a ->
  ccxt.bids b <> [] /\ ccxt.asks b <> [] /\ exists k, uniform_width k b.
Proof.
  rewrite observe_unfold.
  destruct (array_cases (ccxt.bids b)) as [[E _]|[k [E Hk]]]; rewrite E;
    [discriminate|].
  destruct (array_cases (ccxt.asks b)) as [[E' _]|[k' [E' Hk']]]; rewrite E'.
  - rewrite minus_ones, concatenate_columns. discriminate.
  - rewrite minus_ones, ones_column, !concatenate_columns.
    rewrite rot90_thrice, flipud_rows, rot90_once.
    apply row_length_inv in Hk, Hk'.
    destruct Hk as [Hb Fb], Hk' as [Ha Fa].
    unfold np.concatenate. cbn [fst snd].
    destruct (Nat.eqb_spec (k + 1) (k' + 1)) as [Heq|Hne]; [|discriminate].
    intros _. assert (k' = k) by lia. subst k'.
    repeat split; trivial. exists k. now split.
Qed.

End Pairs.

(** ** Rows and columns of the observation *)

Section Columns.

Lemma transpose_three (cols : list (list Q)) :
  Forall (fun c => length c = 3) cols ->
  map (fun j => np.column j
                  [np.column 0 cols; np.column 1 cols; np.column 2 cols])
      (seq 0 (length cols))
  = cols.
Proof.
  induction 1 as [|c cs Hc _ IH]; [reflexivity|].
  destruct c as [|x [|y [|z [|w c]]]]; try discriminate.
  cbn [length seq map]. rewrite <- seq_shift, map_map.
  f_equal. exact IH.
Qed.

Lemma labelled_columns (b : ccxt.OrderBook) :
  Forall (fun c => length c = 3) (labelled b).
Proof.
  unfold labelled. apply Forall_app. split; apply Forall_forall;
    intros c Hc; apply in_map_iff in Hc; destruct Hc as [e [<- _]];
    reflexivity.
Qed.

Lemma labelled_length (b : ccxt.OrderBook) :
  length (labelled b) = length (ccxt.bids b) + length (ccxt.asks b).
Proof.
  unfold labelled. now rewrite length_app, !length_map, length_rev.
Qed.

Lemma column_length (j : nat) (l : list (list Q)) :
  length (np.column j l) = length l.
Proof. apply length_map. Qed.


Lemma quantity_row (b : ccxt.OrderBook) :
  np.column 1 (labelled b)
  = rev (map quantity (ccxt.bids b)) ++ map quantity (ccxt.asks b).
Proof. now rewrite column_labelled. Qed.


(** What [_reset] does on a well-formed book, in full. *)
Lemma reset_well_formed (self : Market.t) (b : ccxt.OrderBook) :
  next_book self = inr b -> well_formed b ->
  let arr := np.Arr2 3 (length (ccxt.bids b) + length (ccxt.asks b))
               [np.column 0 (labelled b);
                np.column 1 (labelled b);
                np.column 2 (labelled b)] in
  Market._reset self = (Market.set_state arr (fetched self), inr arr).
Proof.
  intros Hn Hw. cbv zeta.
  now rewrite (reset_factor self b Hn), (observe_pairs b Hw).
Qed.

End Columns.

(** ** Concrete runs *)

Example reset_book1 :
  Market._reset env1
  = (Market.set_state
       (np.Arr2 3 5 [[-1; -1; 1; 1; 1]; [5; 2; 3; 1; 4]; [9; 10; 11; 12; 13]]%Q)
       (fetched env1),
     inr (np.Arr2 3 5
            [[-1; -1; 1; 1; 1]; [5; 2; 3; 1; 4]; [9; 10; 11; 12; 13]]%Q)).
Proof. reflexivity. Qed.

Example reset_book3 :
  observe book3 = inr (np.Arr2 4 2 [[-1; 1]; [7; 8]; [2; 4]; [1; 3]]%Q).
Proof. reflexivity. Qed.

Example reset_no_bids :
  snd (Market._reset (probe book_no_bids)) = inl AxisError.
Proof. reflexivity. Qed.

Example reset_no_asks_keeps_state :
  snd (Market._reset env3) = inl AxisError /\
  Market.state (fst (Market._reset env3)) = Some (np.Arr2 1 1 [[7%Q]]).
Proof. split; reflexivity. Qed.

Example reset_ragged :
  observe (ccxt.mkOrderBook [[10; 2]; [9]]%Q [[11; 3]]%Q) = inl AxisError.
Proof. reflexivity. Qed.

Example init_book1 :
  ccxt.calls (fst (Market.__init__ 0 (always book1) "BTC/USD"))
  = [ccxt.load_markets_call; ccxt.fetch_order_book_call "BTC/USD"].
Proof. reflexivity. Qed.

Example seed_42 :
  snd (Market._seed 0 (Some 42%Z) env1) = inr [42%Z].
Proof. reflexivity. Qed.

Example seed_negative :
  Market._seed 0 (Some (-1)%Z) env1 = (env1, inl GymError).
Proof. reflexivity. Qed.

Example seed_wraps :
  snd (Market._seed 0 (Some (2 ^ 64)%Z) env1) = inr [0%Z].
Proof. reflexivity. Qed.

Example sample_generator1 :
  snd (OrderSpace.sample (generator1, OrderSpace.__init__ 1))
  = inr (PyList [PyBool true; PyStr "limit"; PyStr "buy";
                 PyFloat (0 + (1 - 0) * (3703703673703701 # 9007199254740992));
                 PyFloat (inject_Z (-1)
                          * (1 - (4938271564938268 # 9007199254740992)))]).
Proof. reflexivity. Qed.

(** ** Claims about [_reset] on well-formed books *)

(** C1 (as worded) fails: on the book with bids [[10, 2], [9, 5]] and asks
    [[11, 3], [12, 1], [13, 4]] the returned columns start with the sign
    and end with the price, so no column reads (10, 2, -1). *)
Lemma reset_columns_not_price_first :
  well_formed book1 /\ next_book env1 = inr book1 /\
  exists arr, snd (Market._reset env1) = inr arr /\
              ~ price_first_columns book1 arr.
Proof.
  split; [|split; [reflexivity|]].
  - repeat split; try discriminate; repeat constructor.
  - eexists. split; [reflexivity|].
    intros [Hb _]. specialize (Hb [10; 2]%Q (or_introl eq_refl)).
    vm_compute in Hb.
    repeat (destruct Hb as [Hb|Hb]; [discriminate Hb|]). exact Hb.
Qed.

(** C1 (amended): for every fetched order book whose bids and asks are
    non-empty lists of [[price, quantity]] pairs, [_reset] returns (and
    stores in [self.state]) an array whose columns are the bids from last
    to first followed by the asks, every bid column reading
    (-1, quantity, price) and every ask column (+1, quantity, price) from
    the top row down. *)
Theorem reset_columns_sign_quantity_price
    (self : Market.t) (b : ccxt.OrderBook) :
  next_book self = inr b -> well_formed b ->
  exists arr,
    Market._reset self = (Market.set_state arr (fetched self), inr arr) /\
    columns arr
    = map (fun e => [(-1)%Q; quantity e; price e]) (rev (ccxt.bids b))
      ++ map (fun e => [1%Q; quantity e; price e]) (ccxt.asks b).
Proof.
  intros Hn Hw. eexists. split; [exact (reset_well_formed self b Hn Hw)|].
  unfold columns, np.transpose. rewrite <- labelled_length.
  apply transpose_three, labelled_columns.
Qed.

Lemma reset_columns_sign_quantity_price_witness :
  exists arr,
    Market._reset env1 = (Market.set_state arr (fetched env1), inr arr) /\
    columns arr
    = map (fun e => [(-1)%Q; quantity e; price e]) (rev (ccxt.bids book1))
      ++ map (fun e => [1%Q; quantity e; price e]) (ccxt.asks book1).
Proof.
  apply (reset_columns_sign_quantity_price env1 book1).
  - reflexivity.
  - repeat split; try discriminate; repeat constructor.
Defined.

(** C2: for every fetched order book with n >= 1 bids and m >= 1 asks,
    each a [[price, quantity]] pair, the array returned by [_reset] has
    shape (3, n + m): three rows of n + m numbers each. *)
Theorem reset_shape (self : Market.t) (b : ccxt.OrderBook) :
  next_book self = inr b -> well_formed b ->
  exists arr,
    snd (Market._reset self) = inr arr /\
    np.shape arr = [3; length (ccxt.bids b) + length (ccxt.asks b)] /\
    length (rows arr) = 3 /\
    Forall (fun r => length r = length (ccxt.bids b) + length (ccxt.asks b))
           (rows arr).
Proof.
  intros Hn Hw. eexists. rewrite (reset_well_formed self b Hn Hw).
  split; [reflexivity|]. split; [reflexivity|]. split; [reflexivity|].
  cbn [rows]. repeat constructor; now rewrite column_length, labelled_length.
Qed.

Lemma reset_shape_witness :
  exists arr,
    snd (Market._reset env1) = inr arr /\
    np.shape arr = [3; 2 + 3] /\
    length (rows arr) = 3 /\
    Forall (fun r => length r = 2 + 3) (rows arr).
Proof.
  apply (reset_shape env1 book1).
  - reflexivity.
  - repeat split; try discriminate; repeat constructor.
Defined.

(** C3 (as worded) fails: two environments that fetch the same book, one
    without asks, both raise, and each keeps the state it had: the two
    resulting states differ. *)
Lemma reset_states_differ_on_failure :
  next_book env3 = inr book_no_asks /\
  next_book (probe book_no_asks) = inr book_no_asks /\
  Market.state (fst (Market._reset env3))
  <> Market.state (fst (Market._reset (probe book_no_asks))).
Proof.
  split; [reflexivity|]. split; [reflexivity|]. vm_compute. discriminate.
Qed.

(** C3 (amended): two invocations of [_reset] that fetch the same order
    book raise the same error or return the same observation, whatever
    the two environments held before: the outcome is a function of the
    fetched book alone.  When they return, the observation is what both
    leave in [self.state]; when they raise, each environment keeps the
    [self.state] it had before the call. *)
Theorem reset_depends_on_book_only (s1 s2 : Market.t) (b : ccxt.OrderBook) :
  next_book s1 = inr b -> next_book s2 = inr b ->
  snd (Market._reset s1) = snd (Market._reset s2) /\
  snd (Market._reset s1) = observe b /\
  (forall arr, snd (Market._reset s1) = inr arr ->
               Market.state (fst (Market._reset s1)) = Some arr /\
               Market.state (fst (Market._reset s2)) = Some arr) /\
  (forall e, snd (Market._reset s1) = inl e ->
             Market.state (fst (Market._reset s1)) = Market.state s1 /\
             Market.state (fst (Market._reset s2)) = Market.state s2).
Proof.
  intros H1 H2.
  rewrite (reset_factor s1 b H1), (reset_factor s2 b H2).
  destruct (observe b) as [e|a];
    (split; [reflexivity|split; [reflexivity|split]]).
  - intros arr Harr. discriminate Harr.
  - intros e' _. split; reflexivity.
  - intros arr Harr. injection Harr as <-. split; reflexivity.
  - intros e Herr. discriminate Herr.
Qed.

Lemma reset_depends_on_book_only_witness :
  snd (Market._reset env1) = snd (Market._reset env2) /\
  snd (Market._reset env1) = observe book1 /\
  (forall arr, snd (Market._reset env1) = inr arr ->
               Market.state (fst (Market._reset env1)) = Some arr /\
               Market.state (fst (Market._reset env2)) = Some arr) /\
  (forall e, snd (Market._reset env1) = inl e ->
             Market.state (fst (Market._reset env1)) = Market.state env1 /\
             Market.state (fst (Market._reset env2)) = Market.state env2).
Proof.
  apply (reset_depends_on_book_only env1 env2 book1); reflexivity.
Defined.

(** ** Stubs *)

(** C4 (as worded) fails: [Market._step], [DRQN.train] and [DRQN.play]
    are [pass] bodies; called, they raise nothing. *)
Lemma pass_stubs_do_not_raise :
  ~ raises (Market._step PyNone) env1 NotImplementedError /\
  ~ raises (DRQN.train 500 32) DRQN.__init__ NotImplementedError /\
  ~ raises (DRQN.play 1) DRQN.__init__ NotImplementedError.
Proof. repeat split; discriminate. Qed.

(** C4 (amended): [OrderSpace.contains], [OrderSpace.to_jsonable] and
    [OrderSpace.from_jsonable] raise [NotImplementedError] whenever they
    are called; [Market._step], [DRQN.train] and [DRQN.play] raise nothing
    and return [None]. *)
Theorem stubs_behaviour :
  (forall x s, raises (OrderSpace.contains x) s NotImplementedError) /\
  (forall x s, raises (OrderSpace.to_jsonable x) s NotImplementedError) /\
  (forall x s, raises (OrderSpace.from_jsonable x) s NotImplementedError) /\
  (forall action self, snd (Market._step action self) = inr PyNone) /\
  (forall n_epochs batch_size self,
      snd (DRQN.train n_epochs batch_size self) = inr PyNone) /\
  (forall n_epochs self, snd (DRQN.play n_epochs self) = inr PyNone).
Proof. repeat split. Qed.

(** C5: for every action, [Market._step] returns [None] and leaves every
    attribute of the environment, [self.state] included, as it was. *)
Theorem step_is_noop (action : pyobj) (self : Market.t) :
  Market._step action self = (self, inr PyNone).
Proof. reflexivity. Qed.

(** ** Seeding *)

(** C6 (as worded) fails: the integer seed -1 is rejected, so no list
    [[-1]] is returned; and the seed 2^64 comes back as 0. *)
Lemma seed_not_always_echoed :
  snd (Market._seed 0 (Some (-1)%Z) env1) <> inr [(-1)%Z] /\
  snd (Market._seed 0 (Some (2 ^ 64)%Z) env1) <> inr [(2 ^ 64)%Z].
Proof. split; vm_compute; discriminate. Qed.

(** C6 (amended): for every seed that is [None] or a non-negative
    integer, [_seed] assigns the generator made by [seeding.np_random] to
    [self.np_random], changes nothing else, and returns the one-element
    list of the seed used; for an integer seed below 2^64 that list is
    [[seed]]. *)
Theorem seed_returns_seed_used
    (urandom : Z) (seed : option Z) (self : Market.t) :
  (forall z, seed = Some z -> (0 <= z)%Z) ->
  exists rng used,
    gym.seeding.np_random urandom seed = inr (rng, used) /\
    Market._seed urandom seed self
    = (Market.set_np_random rng self, inr [used]) /\
    (forall z, seed = Some z -> (z < 2 ^ 64)%Z -> used = z).
Proof.
  intros Hpos. unfold Market._seed, bind, lift, modify, ret.
  destruct seed as [z|]; cbn [gym.seeding.np_random].
  - specialize (Hpos z eq_refl).
    destruct (Z.ltb_spec z 0) as [Hneg|_]; [lia|].
    do 2 eexists. split; [reflexivity|]. split; [reflexivity|].
    intros z' [= <-] Hlt. cbn [gym.seeding.create_seed].
    apply Z.mod_small. lia.
  - do 2 eexists. split; [reflexivity|]. split; [reflexivity|].
    discriminate.
Qed.

Lemma seed_returns_seed_used_witness :
  exists rng used,
    gym.seeding.np_random 0 (Some 42%Z) = inr (rng, used) /\
    Market._seed 0 (Some 42%Z) env1
    = (Market.set_np_random rng env1, inr [used]) /\
    (forall z, Some 42%Z = Some z -> (z < 2 ^ 64)%Z -> used = z).
Proof.
  apply (seed_returns_seed_used 0 (Some 42%Z) env1).
  intros z [= <-]. lia.
Defined.

(** ** Calls on the exchange *)

Section ExchangeCalls.

Lemma reset_exchange (self : Market.t) :
  Market.exchange (fst (Market._reset self))
  = Market.exchange (fetched self).
Proof.
  destruct (next_book self) as [e|b] eqn:Hn.
  - now rewrite (reset_fetch_failed self e Hn).
  - rewrite (reset_factor self b Hn).
    destruct (observe b); reflexivity.
Qed.

Lemma reset_calls (self : Market.t) :
  ccxt.calls (Market.exchange (fst (Market._reset self)))
  = ccxt.calls (Market.exchange self)
    ++ [ccxt.fetch_order_book_call (Market.symbol self)].
Proof. now rewrite reset_exchange, fetched_calls. Qed.

Lemma seed_exchange (urandom : Z) (seed : option Z) (self : Market.t) :
  Market.exchange (fst (Market._seed urandom seed self))
  = Market.exchange self.
Proof.
  unfold Market._seed, bind, lift, modify, ret.
  destruct (gym.seeding.np_random urandom seed); reflexivity.
Qed.

Lemma init_calls (urandom : Z) (ex : ccxt.Exchange) (sym : string) :
  ccxt.calls (fst (Market.__init__ urandom ex sym))
  = ccxt.calls ex
    ++ ccxt.load_markets_call
       :: match ccxt.markets_reply ex with
          | inl _ => []
          | inr _ => [ccxt.fetch_order_book_call sym]
          end.
Proof.
  unfold Market.__init__, ccxt.load_markets.
  destruct (ccxt.markets_reply ex) as [e|mkts]; [reflexivity|].
  unfold Market.seed, Market.reset, bind.
  cbn [Market._seed gym.seeding.np_random bind lift modify ret fst snd].
  match goal with
  | |- context [Market._reset ?s] =>
      pose proof (reset_calls s) as Hc; destruct (Market._reset s) as [s' r]
  end.
  cbn [fst] in Hc.
  destruct r; cbn [fst]; rewrite Hc; cbn; now rewrite <- app_assoc.
Qed.

End ExchangeCalls.

(** C7 (as worded) fails: constructing the environment invokes
    [load_markets] on the exchange before anything is fetched. *)
Lemma init_calls_load_markets :
  ~ only_fetches "BTC/USD"
      (ccxt.calls (fst (Market.__init__ 0 (always book1) "BTC/USD"))).
Proof.
  intros H. inversion H as [|c l Hc Hl]. discriminate Hc.
Qed.

(** C7 (amended): the exchange methods the program invokes are
    [load_markets()], once when the environment is constructed, and
    [fetch_order_book(symbol)], exactly once per [_reset] with the
    environment's configured symbol (the constructor resets once, unless
    [load_markets] raised); [_step], [_seed], [_render] and [_close] invoke
    nothing on the exchange. *)
Theorem exchange_calls :
  (forall self,
      ccxt.calls (Market.exchange (fst (Market._reset self)))
      = ccxt.calls (Market.exchange self)
        ++ [ccxt.fetch_order_book_call (Market.symbol self)]) /\
  (forall urandom ex sym,
      ccxt.calls (fst (Market.__init__ urandom ex sym))
      = ccxt.calls ex
        ++ ccxt.load_markets_call
           :: match ccxt.markets_reply ex with
              | inl _ => []
              | inr _ => [ccxt.fetch_order_book_call sym]
              end) /\
  (forall action self,
      Market.exchange (fst (Market._step action self)) = Market.exchange self) /\
  (forall urandom seed self,
      Market.exchange (fst (Market._seed urandom seed self))
      = Market.exchange self) /\
  (forall mode close self,
      Market.exchange (fst (Market._render mode close self))
      = Market.exchange self) /\
  (forall self,
      Market.exchange (fst (Market._close self)) = Market.exchange self).
Proof.
  split; [exact reset_calls|]. split; [exact init_calls|].
  split; [reflexivity|]. split; [exact seed_exchange|].
  split; [|reflexivity].
  intros mode close self. unfold Market._render.
  destruct (String.eqb mode "ansi"); [reflexivity|].
  destruct (String.eqb mode "human"); reflexivity.
Qed.

(** ** Order of the price row *)

Section SortedLists.

Variable A : Type.
Variable R : A -> A -> Prop.



End SortedLists.




(** ** Sampling the action space *)

Section Sampling.

Lemma choice_pair (A : Type) (x y : A) (g : np.random.RandomState) :
  exists v, np.random.choice [x; y] g = (advance g, inr v) /\ (v = x \/ v = y).
Proof.
  unfold np.random.choice, bind, np.random.next_raw, ret, raise, advance.
  cbn [length]. change (Z.of_nat 2) with 2%Z.
  set (r := np.random.raw g (np.random.pos g)).
  assert (Hr : (0 <= r mod 2 < 2)%Z) by (apply Z.mod_pos_bound; lia).
  assert (Hc : (r mod 2 = 0 \/ r mod 2 = 1)%Z) by lia.
  destruct Hc as [-> | ->]; cbn [Z.to_nat Pos.to_nat Pos.iter_op Nat.add
                                    nth_error];
    [exists x | exists y]; split; auto.
Qed.

Lemma random_sample_range (g : np.random.RandomState) :
  exists u, np.random.random_sample g = (advance g, inr u) /\
            (0 <= u)%Q /\ (u < 1)%Q.
Proof.
  unfold np.random.random_sample, bind, np.random.next_raw, ret, advance.
  eexists. split; [reflexivity|].
  set (r := np.random.raw g (np.random.pos g)).
  assert (Hr : (0 <= r mod 2 ^ 53 < 2 ^ 53)%Z) by (apply Z.mod_pos_bound; lia).
  unfold Qle, Qlt. cbn [Qnum Qden]. split; lia.
Qed.

Lemma float_limit_pos : (0 < np.random.float_limit)%Q.
Proof. reflexivity. Qed.

Lemma in_float_range_spec (x : Q) :
  np.random.in_float_range x = true <->
  (- np.random.float_limit < x)%Q /\ (x < np.random.float_limit)%Q.
Proof.
  unfold np.random.in_float_range.
  rewrite andb_true_iff, !negb_true_iff. split.
  - intros [H1 H2]. split; apply Qnot_le_lt; intros H;
      apply Qle_bool_iff in H; congruence.
  - intros [H1 H2]. split; apply not_true_is_false; intros H;
      apply Qle_bool_iff in H; [apply (Qlt_not_le _ _ H2 H)
                               |apply (Qlt_not_le _ _ H1 H)].
Qed.

Lemma in_float_range_Qeq (x y : Q) :
  (x == y)%Q -> np.random.in_float_range x = np.random.in_float_range y.
Proof.
  intros Hxy.
  destruct (np.random.in_float_range x) eqn:Ex,
           (np.random.in_float_range y) eqn:Ey; try reflexivity.
  - apply in_float_range_spec in Ex. destruct Ex as [E1 E2].
    assert (Hy : np.random.in_float_range y = true)
      by (apply in_float_range_spec; rewrite <- Hxy; now split).
    congruence.
  - apply in_float_range_spec in Ey. destruct Ey as [E1 E2].
    assert (Hx : np.random.in_float_range x = true)
      by (apply in_float_range_spec; rewrite Hxy; now split).
    congruence.
Qed.

(** The range test of [uniform(0, m)] comes down to [m] itself. *)
Lemma range_from_zero (m : Q) :
  np.random.in_float_range 0 && np.random.in_float_range m
  && np.random.in_float_range (m - 0)
  = np.random.in_float_range m.
Proof.
  assert (H0 : np.random.in_float_range 0 = true) by reflexivity.
  rewrite H0, (in_float_range_Qeq (m - 0) m) by ring.
  cbn [andb]. apply andb_diag.
Qed.

Lemma uniform_range (low high : Q) (g : np.random.RandomState) :
  (low <= high)%Q ->
  np.random.in_float_range low && np.random.in_float_range high
  && np.random.in_float_range (high - low) = true ->
  exists x, np.random.uniform low high g = (advance g, inr x) /\
            (low <= x)%Q /\ (x <= high)%Q.
Proof.
  intros Hlh Hr. unfold np.random.uniform, bind. rewrite Hr.
  destruct (random_sample_range g) as [u [-> [H0 H1]]]. unfold ret.
  eexists. split; [reflexivity|]. split; nra.
Qed.

End Sampling.

(** C9 (as worded) fails: [max_amount = 2^1024] is not negative, yet it
    does not fit a double, so the uniform draw raises [OverflowError] and
    no list is returned. *)
Lemma sample_overflows :
  (0 <= OrderSpace.max_amount huge_space)%Q /\
  snd (OrderSpace.sample (generator1, huge_space)) = inl OverflowError /\
  ~ exists po ty sd am pr,
      snd (OrderSpace.sample (generator1, huge_space))
      = inr (PyList [PyBool po; PyStr ty; PyStr sd; PyFloat am; PyFloat pr]).
Proof.
  assert (E : snd (OrderSpace.sample (generator1, huge_space))
              = inl OverflowError) by (vm_compute; reflexivity).
  split; [discriminate|]. split; [exact E|].
  intros (po & ty & sd & am & pr & H). rewrite E in H. discriminate H.
Qed.

(** C9 (amended): for every [max_amount >= 0] within the finite range of
    a double and every stream of raw draws, [OrderSpace.sample] returns
    the five-element list [[place_order, type, side, amount, price]]
    where [amount] lies in [[0, max_amount]], and [price] lies in
    [[-1, 0)] when [side] is ['buy'] and in [(0, 1]] when [side] is
    ['sell']; the five values are also what the call leaves in the
    attributes of the space. *)
Theorem sample_in_range (g : np.random.RandomState) (self : OrderSpace.t) :
  (0 <= OrderSpace.max_amount self)%Q ->
  (OrderSpace.max_amount self < np.random.float_limit)%Q ->
  exists po ty sd am pr,
    snd (OrderSpace.sample (g, self))
    = inr (PyList [PyBool po; PyStr ty; PyStr sd; PyFloat am; PyFloat pr]) /\
    snd (fst (OrderSpace.sample (g, self)))
    = OrderSpace.mk (OrderSpace.max_amount self)
                    (Some po) (Some ty) (Some sd) (Some am) (Some pr) /\
    (0 <= am)%Q /\ (am <= OrderSpace.max_amount self)%Q /\
    ((sd = "buy"%string /\ (-1 <= pr)%Q /\ (pr < 0)%Q) \/
     (sd = "sell"%string /\ (0 < pr)%Q /\ (pr <= 1)%Q)).
Proof.
  intros Hmax Hlim.
  assert (Hr : np.random.in_float_range 0
               && np.random.in_float_range (OrderSpace.max_amount self)
               && np.random.in_float_range (OrderSpace.max_amount self - 0)
               = true).
  { rewrite range_from_zero. apply in_float_range_spec.
    pose proof float_limit_pos. split; [lra|exact Hlim]. }
  unfold OrderSpace.sample, bind, OrderSpace.draw, OrderSpace.setattr,
    modify, get, lift, ret.
  cbn [fst snd].
  destruct (choice_pair bool true false g) as [po [-> _]].
  cbn [fst snd].
  destruct (choice_pair string "market"%string "limit"%string (advance g)) as [ty [-> _]].
  cbn [fst snd].
  destruct (choice_pair string "buy"%string "sell"%string
              (advance (advance g)))
    as [sd [-> Hsd]].
  cbn [fst snd OrderSpace.max_amount].
  destruct (uniform_range 0 (OrderSpace.max_amount self)
              (advance (advance (advance g))) Hmax Hr)
    as [am [-> [Ham0 Ham1]]].
  cbn [fst snd].
  destruct (random_sample_range (advance (advance (advance (advance g)))))
    as [u [Hu [Hu0 Hu1]]].
  exists po, ty, sd, am.
  destruct Hsd as [-> | ->]; cbn [OrderSpace.getitem OrderSpace.side_sign
                                   String.eqb Ascii.eqb Bool.eqb fst snd];
    rewrite Hu; cbn [fst snd]; eexists; (split; [reflexivity|]);
    (split; [reflexivity|]); (split; [exact Ham0|]); (split; [exact Ham1|]);
    [left | right]; (split; [reflexivity|]); split;
    change (inject_Z (-1)) with (-1)%Q; change (inject_Z 1) with 1%Q; nra.
Qed.

Lemma sample_in_range_witness :
  exists po ty sd am pr,
    snd (OrderSpace.sample (generator1, OrderSpace.__init__ 1))
    = inr (PyList [PyBool po; PyStr ty; PyStr sd; PyFloat am; PyFloat pr]) /\
    snd (fst (OrderSpace.sample (generator1, OrderSpace.__init__ 1)))
    = OrderSpace.mk 1 (Some po) (Some ty) (Some sd) (Some am) (Some pr) /\
    (0 <= am)%Q /\ (am <= 1)%Q /\
    ((sd = "buy"%string /\ (-1 <= pr)%Q /\ (pr < 0)%Q) \/
     (sd = "sell"%string /\ (0 < pr)%Q /\ (pr <= 1)%Q)).
Proof.
  apply (sample_in_range generator1 (OrderSpace.__init__ 1)).
  - simpl. discriminate.
  - reflexivity.
Defined.

(** ** When [_reset] succeeds *)

(** C10 (as worded) fails: a book whose entries hold three numbers each
    is reset successfully, although its entries are not pairs. *)
Lemma reset_succeeds_on_triples :
  next_book (probe book3) = inr book3 /\
  (exists arr, snd (Market._reset (probe book3)) = inr arr) /\
  ~ well_formed book3.
Proof.
  split; [reflexivity|]. split.
  - eexists. reflexivity.
  - intros (_ & _ & Hp & _). inversion Hp as [|e l He Hl]. discriminate He.
Qed.

(** C10 (amended): [_reset] succeeds exactly when the fetched order book
    contains at least one bid and at least one ask and all its entries,
    bids and asks alike, hold the same number of values (pairs being the
    case the program is written for); if either the bids list or the asks
    list is empty, the concatenation of the entries with their sign column
    raises an error before [self.state] is assigned, which leaves the
    previous [self.state] in place. *)
Theorem reset_succeeds_iff (self : Market.t) (b : ccxt.OrderBook) :
  next_book self = inr b ->
  ((exists arr, snd (Market._reset self) = inr arr) <->
   (ccxt.bids b <> [] /\ ccxt.asks b <> [] /\ exists k, uniform_width k b)) /\
  (ccxt.bids b = [] \/ ccxt.asks b = [] ->
   snd (Market._reset self) = inl AxisError /\
   Market.state (fst (Market._reset self)) = Market.state self).
Proof.
  intros Hn. rewrite (reset_factor self b Hn). split; [split|].
  - intros [arr Harr]. destruct (observe b) as [e|a] eqn:Ho;
      [discriminate Harr|].
    exact (observe_succeeds_inv b a Ho).
  - intros (Hb & Ha & k & Hk).
    rewrite (observe_uniform k b Hb Ha Hk). eexists. reflexivity.
  - intros [Hb|Ha];
      [rewrite (observe_no_bids b Hb) | rewrite (observe_no_asks b Ha)];
      split; reflexivity.
Qed.

Lemma reset_succeeds_iff_witness :
  ((exists arr, snd (Market._reset env3) = inr arr) <->
   (ccxt.bids book_no_asks <> [] /\ ccxt.asks book_no_asks <> [] /\
    exists k, uniform_width k book_no_asks)) /\
  (ccxt.bids book_no_asks = [] \/ ccxt.asks book_no_asks = [] ->
   snd (Market._reset env3) = inl AxisError /\
   Market.state (fst (Market._reset env3)) = Market.state env3).
Proof.
  apply (reset_succeeds_iff env3 book_no_asks).
  reflexivity.
Defined.

(** * Further properties of the code *)

(** ** Entries of any width *)

Section Transpose.

Lemma nth_seq_id (A : Type) (d : A) (l : list A) :
  map (fun i => nth i l d) (seq 0 (length l)) = l.
Proof.
  induction l as [|a l IH]; [reflexivity|].
  cbn [length seq map nth]. rewrite <- seq_shift, map_map.
  f_equal. exact IH.
Qed.

Lemma rev_map_seq (A : Type) (f : nat -> A) (n : nat) :
  rev (map f (seq 0 n)) = map (fun i => f (n - 1 - i)) (seq 0 n).
Proof.
  induction n as [|n IH]; [reflexivity|].
  rewrite seq_S at 1. rewrite map_app, rev_app_distr. cbn [map rev app Nat.add].
  rewrite IH. cbn [seq map]. rewrite Nat.sub_0_r. f_equal; [f_equal; lia|].
  rewrite <- seq_shift, map_map. apply map_ext. intros i. f_equal. lia.
Qed.

Lemma hstack_map (f g : nat -> list Q) (s : list nat) :
  np.hstack (map f s) (map g s) = map (fun i => f i ++ g i) s.
Proof.
  induction s as [|i s IH]; [reflexivity|]. cbn [map np.hstack].
  now rewrite IH.
Qed.

(** Transposing twice gives back the columns. *)
Lemma transpose_involutive (L : nat) (cols : list (list Q)) :
  Forall (fun c => length c = L) cols ->
  map (fun j => np.column j (map (fun i => np.column i cols) (seq 0 L)))
      (seq 0 (length cols))
  = cols.
Proof.
  intros Hc. rewrite <- (nth_seq_id _ [] cols) at 2.
  apply map_ext_in. intros j Hj. apply in_seq in Hj.
  unfold np.column at 1. rewrite map_map.
  assert (Hin : In (nth j cols []) cols) by (apply nth_In; lia).
  rewrite Forall_forall in Hc. rewrite <- (Hc _ Hin).
  rewrite <- (nth_seq_id _ 0%Q (nth j cols [])) at 2.
  apply map_ext. intros i. unfold np.column.
  transitivity (nth j (map (fun r : list Q => nth i r 0%Q) cols)
                      ((fun r : list Q => nth i r 0%Q) [])).
  - apply nth_indep. rewrite length_map. lia.
  - apply (map_nth (fun r : list Q => nth i r 0%Q)).
Qed.

Lemma signed_columns_length (b : ccxt.OrderBook) :
  length (signed_columns b) = length (ccxt.bids b) + length (ccxt.asks b).
Proof.
  unfold signed_columns. now rewrite length_app, !length_map, length_rev.
Qed.

Lemma signed_columns_width (k : nat) (b : ccxt.OrderBook) :
  uniform_width k b ->
  Forall (fun c => length c = k + 1) (signed_columns b).
Proof.
  intros [Hb Ha]. unfold signed_columns. apply Forall_app.
  split; apply Forall_forall; intros c Hc; apply in_map_iff in Hc;
    destruct Hc as [e [<- He]]; cbn [length]; rewrite length_rev.
  - apply in_rev in He. rewrite Forall_forall in Hb. rewrite (Hb e He). lia.
  - rewrite Forall_forall in Ha. rewrite (Ha e He). lia.
Qed.

(** The rows the pipeline builds are the transposed signed columns. *)
Lemma pipeline_rows (k : nat) (b : ccxt.OrderBook) :
  uniform_width k b ->
  np.hstack
    (rev (map (@rev Q)
            (map (fun j => np.column j
                    (map (fun e => e ++ [(-1)%Q]) (ccxt.bids b)))
                 (seq 0 (k + 1)))))
    (map (fun j => np.column j
            (map (@rev Q) (map (fun e => e ++ [1%Q]) (ccxt.asks b))))
         (seq 0 (k + 1)))
  = map (fun i => np.column i (signed_columns b)) (seq 0 (k + 1)).
Proof.
  intros [Hb Ha]. rewrite map_map, rev_map_seq, hstack_map.
  apply map_ext_in. intros i Hi. apply in_seq in Hi.
  unfold signed_columns. rewrite column_app, !column_map, !map_map.
  rewrite map_rev. f_equal.
  - f_equal. apply map_ext_in. intros e He.
    rewrite Forall_forall in Hb. specialize (Hb e He).
    change ((-1)%Q :: rev e) with (rev [(-1)%Q] ++ rev e).
    rewrite <- rev_app_distr, rev_nth by (rewrite length_app; simpl; lia).
    f_equal. rewrite length_app. simpl. lia.
  - apply map_ext. intros e. now rewrite rev_app_distr.
Qed.

Lemma observe_signed_columns (k : nat) (b : ccxt.OrderBook) :
  ccxt.bids b <> [] -> ccxt.asks b <> [] -> uniform_width k b ->
  observe b
  = inr (np.Arr2 (k + 1) (length (ccxt.bids b) + length (ccxt.asks b))
           (map (fun i => np.column i (signed_columns b)) (seq 0 (k + 1)))).
Proof.
  intros Hb Ha Hk.
  now rewrite (observe_uniform k b Hb Ha Hk), (pipeline_rows k b Hk).
Qed.

End Transpose.

(** X1: on a book with at least one bid and one ask whose entries all
    hold [k] numbers, [_reset] returns and stores an array of shape
    (k + 1, n + m) whose columns are the bids from last to first followed
    by the asks in order, each column being the entry reversed under its
    sign (-1 for a bid, +1 for an ask). *)
Theorem reset_any_width (self : Market.t) (b : ccxt.OrderBook) (k : nat) :
  next_book self = inr b ->
  ccxt.bids b <> [] -> ccxt.asks b <> [] -> uniform_width k b ->
  exists arr,
    Market._reset self = (Market.set_state arr (fetched self), inr arr) /\
    np.shape arr = [k + 1; length (ccxt.bids b) + length (ccxt.asks b)] /\
    length (rows arr) = k + 1 /\
    Forall (fun r => length r = length (ccxt.bids b) + length (ccxt.asks b))
           (rows arr) /\
    columns arr
    = map (fun e => (-1)%Q :: rev e) (rev (ccxt.bids b))
      ++ map (fun e => 1%Q :: rev e) (ccxt.asks b).
Proof.
  intros Hn Hb Ha Hk. eexists.
  rewrite (reset_factor self b Hn), (observe_signed_columns k b Hb Ha Hk).
  split; [reflexivity|]. split; [reflexivity|]. cbn [rows].
  split; [now rewrite length_map, length_seq|]. split.
  - apply Forall_forall. intros r Hr. apply in_map_iff in Hr.
    destruct Hr as [i [<- _]].
    now rewrite column_length, signed_columns_length.
  - unfold columns, np.transpose. rewrite <- signed_columns_length.
    apply transpose_involutive, signed_columns_width, Hk.
Qed.

Lemma reset_any_width_witness :
  exists arr,
    Market._reset (probe book3)
    = (Market.set_state arr (fetched (probe book3)), inr arr) /\
    np.shape arr = [3 + 1; 1 + 1] /\
    length (rows arr) = 3 + 1 /\
    Forall (fun r => length r = 1 + 1) (rows arr) /\
    columns arr
    = map (fun e => (-1)%Q :: rev e) (rev (ccxt.bids book3))
      ++ map (fun e => 1%Q :: rev e) (ccxt.asks book3).
Proof.
  apply (reset_any_width (probe book3) book3 3).
  - reflexivity.
  - discriminate.
  - discriminate.
  - split; repeat constructor.
Defined.

(** ** Failures of [_reset] *)

Section ResetFailures.

Lemma observe_mismatch (k k' : nat) (b : ccxt.OrderBook) :
  ccxt.bids b <> [] -> ccxt.asks b <> [] ->
  Forall (fun e => length e = k) (ccxt.bids b) ->
  Forall (fun e => length e = k') (ccxt.asks b) ->
  k <> k' ->
  observe b = inl ValueError.
Proof.
  intros Hb Ha Hk Hk' Hne. rewrite observe_unfold.
  rewrite (array_uniform k _ Hb Hk), (array_uniform k' _ Ha Hk').
  rewrite minus_ones, ones_column, !concatenate_columns.
  rewrite rot90_thrice, flipud_rows, rot90_once.
  unfold np.concatenate. cbn [fst snd].
  destruct (Nat.eqb_spec (k + 1) (k' + 1)) as [Heq|_]; [lia|reflexivity].
Qed.

Lemma reset_state_after (self : Market.t) :
  Market.state (fst (Market._reset self))
  = match snd (Market._reset self) with
    | inl _ => Market.state self
    | inr arr => Some arr
    end.
Proof.
  destruct (next_book self) as [e|b] eqn:Hn.
  - now rewrite (reset_fetch_failed self e Hn).
  - rewrite (reset_factor self b Hn). destruct (observe b); reflexivity.
Qed.

End ResetFailures.

(** X2: whatever the exchange answers, [_reset] touches no attribute
    other than [self.state] and the exchange object: the symbol, the
    markets, [max_amount], the action and observation spaces and the
    generator stay as they were, and so do the answers the exchange holds. *)
Theorem reset_frame (self : Market.t) :
  let self' := fst (Market._reset self) in
  Market.symbol self' = Market.symbol self /\
  Market.markets self' = Market.markets self /\
  Market.max_amount self' = Market.max_amount self /\
  Market.action_space self' = Market.action_space self /\
  Market.observation_space self' = Market.observation_space self /\
  Market.np_random self' = Market.np_random self /\
  ccxt.markets_reply (Market.exchange self')
  = ccxt.markets_reply (Market.exchange self) /\
  ccxt.book_reply (Market.exchange self')
  = ccxt.book_reply (Market.exchange self).
Proof.
  cbv zeta. destruct (next_book self) as [e|b] eqn:Hn.
  - rewrite (reset_fetch_failed self e Hn). repeat split.
  - rewrite (reset_factor self b Hn). destruct (observe b); repeat split.
Qed.

(** X3: whenever [_reset] raises, for whatever reason, [self.state] keeps
    the value it had before the call, and the exchange has still been
    asked exactly once. *)
Theorem reset_failure_keeps_state (self : Market.t) (e : exn) :
  snd (Market._reset self) = inl e ->
  Market.state (fst (Market._reset self)) = Market.state self /\
  ccxt.calls (Market.exchange (fst (Market._reset self)))
  = ccxt.calls (Market.exchange self)
    ++ [ccxt.fetch_order_book_call (Market.symbol self)].
Proof.
  intros He. split; [|apply reset_calls].
  rewrite reset_state_after. now rewrite He.
Qed.

Lemma reset_failure_keeps_state_witness :
  Market.state (fst (Market._reset env3)) = Market.state env3 /\
  ccxt.calls (Market.exchange (fst (Market._reset env3)))
  = ccxt.calls (Market.exchange env3)
    ++ [ccxt.fetch_order_book_call (Market.symbol env3)].
Proof.
  apply (reset_failure_keeps_state env3 AxisError). reflexivity.
Defined.

(** X4: an error raised by [fetch_order_book] leaves [_reset] as the same
    error, before any array is built. *)
Theorem reset_propagates_fetch_error (self : Market.t) (e : exn) :
  next_book self = inl e ->
  snd (Market._reset self) = inl e /\
  Market.state (fst (Market._reset self)) = Market.state self.
Proof.
  intros Hn. rewrite (reset_fetch_failed self e Hn). split; reflexivity.
Qed.

Lemma reset_propagates_fetch_error_witness :
  snd (Market._reset env4) = inl ExchangeError /\
  Market.state (fst (Market._reset env4)) = Market.state env4.
Proof.
  apply (reset_propagates_fetch_error env4 ExchangeError). reflexivity.
Defined.

(** X5: when every bid holds [k] numbers and every ask holds [k'] numbers
    with [k <> k'], both lists being non-empty, the final concatenation
    of [_reset] raises [ValueError] and [self.state] is not assigned. *)
Theorem reset_width_mismatch
    (self : Market.t) (b : ccxt.OrderBook) (k k' : nat) :
  next_book self = inr b ->
  ccxt.bids b <> [] -> ccxt.asks b <> [] ->
  Forall (fun e => length e = k) (ccxt.bids b) ->
  Forall (fun e => length e = k') (ccxt.asks b) ->
  k <> k' ->
  snd (Market._reset self) = inl ValueError /\
  Market.state (fst (Market._reset self)) = Market.state self.
Proof.
  intros Hn Hb Ha Hk Hk' Hne.
  rewrite (reset_factor self b Hn), (observe_mismatch k k' b Hb Ha Hk Hk' Hne).
  split; reflexivity.
Qed.

Lemma reset_width_mismatch_witness :
  snd (Market._reset (probe book_mixed)) = inl ValueError /\
  Market.state (fst (Market._reset (probe book_mixed)))
  = Market.state (probe book_mixed).
Proof.
  apply (reset_width_mismatch (probe book_mixed) book_mixed 2 3).
  - reflexivity.
  - discriminate.
  - discriminate.
  - repeat constructor.
  - repeat constructor.
  - lia.
Defined.

(** ** Resetting again *)

(** X6: nothing is cached between resets.  After a successful [_reset],
    a second [_reset] asks the exchange again and its outcome is that of
    the second book alone: on success its observation replaces the first
    one, on failure the first observation stays in [self.state]. *)
Theorem reset_twice
    (self : Market.t) (b1 b2 : ccxt.OrderBook) (a1 : np.ndarray) :
  next_book self = inr b1 -> observe b1 = inr a1 ->
  next_book (fetched self) = inr b2 ->
  let run := (Market._reset ;; Market._reset)%py self in
  snd run = observe b2 /\
  Market.state (fst run)
  = match observe b2 with
    | inl _ => Some a1
    | inr a2 => Some a2
    end /\
  ccxt.calls (Market.exchange (fst run))
  = ccxt.calls (Market.exchange self)
    ++ [ccxt.fetch_order_book_call (Market.symbol self);
        ccxt.fetch_order_book_call (Market.symbol self)].
Proof.
  intros H1 Ho H2. cbv zeta. unfold bind.
  rewrite (reset_factor self b1 H1), Ho.
  assert (H2' : next_book (Market.set_state a1 (fetched self)) = inr b2)
    by exact H2.
  rewrite (reset_factor _ b2 H2').
  destruct (observe b2); cbn [fst snd];
    (split; [reflexivity|]); (split; [reflexivity|]);
    cbn; now rewrite <- app_assoc.
Qed.

Lemma reset_twice_witness :
  let run := (Market._reset ;; Market._reset)%py env2 in
  snd run = observe book1 /\
  Market.state (fst run)
  = match observe book1 with
    | inl _ => Some (np.Arr2 3 5
                       [[-1; -1; 1; 1; 1]; [5; 2; 3; 1; 4];
                        [9; 10; 11; 12; 13]]%Q)
    | inr a2 => Some a2
    end /\
  ccxt.calls (Market.exchange (fst run))
  = ccxt.calls (Market.exchange env2)
    ++ [ccxt.fetch_order_book_call (Market.symbol env2);
        ccxt.fetch_order_book_call (Market.symbol env2)].
Proof.
  apply (reset_twice env2 book1 book1); reflexivity.
Defined.

(** ** The constructor *)

Section Constructor.

Lemma first_book_next (ex : ccxt.Exchange) (sym : string)
    (mkts : list string) (q : Q) (sp : OrderSpace.t) (bx : gym.Box)
    (g : option gym.seeding.RandomState) (st : option np.ndarray) :
  next_book (Market.mk (loaded ex) mkts sym q sp bx g st) = first_book ex sym.
Proof.
  unfold next_book, first_book, loaded, ccxt.load_markets.
  cbn [fst Market.exchange Market.symbol ccxt.book_reply ccxt.calls].
  rewrite length_app. reflexivity.
Qed.

(** The constructor, case by case. *)
Lemma init_unfold (urandom : Z) (ex : ccxt.Exchange) (sym : string) :
  Market.__init__ urandom ex sym
  = match ccxt.markets_reply ex with
    | inl e => (loaded ex, inl e)
    | inr mkts =>
        match first_book ex sym with
        | inl e => (opened ex sym, inl e)
        | inr b =>
            match observe b with
            | inl e => (opened ex sym, inl e)
            | inr arr =>
                (opened ex sym, inr (constructed urandom ex sym mkts arr))
            end
        end
    end.
Proof.
  unfold Market.__init__.
  change (ccxt.load_markets ex) with (loaded ex, ccxt.markets_reply ex).
  destruct (ccxt.markets_reply ex) as [e|mkts]; [reflexivity|].
  unfold Market.seed, Market.reset, bind.
  cbn [Market._seed gym.seeding.np_random gym.seeding.create_seed
       bind lift modify ret fst snd].
  match goal with
  | |- context [Market._reset ?s] =>
      pose proof (first_book_next ex sym mkts 1 (OrderSpace.__init__ 1)
                    (Market.observation_space s) (Market.np_random s) None)
        as Hn;
      change (next_book s = first_book ex sym) in Hn;
      destruct (first_book ex sym) as [e|b];
      [rewrite (reset_fetch_failed s e Hn)
      |rewrite (reset_factor s b Hn); destruct (observe b)]
  end; reflexivity.
Qed.

Lemma init_success_inv
    (urandom : Z) (ex : ccxt.Exchange) (sym : string) (self : Market.t) :
  snd (Market.__init__ urandom ex sym) = inr self ->
  exists mkts b arr,
    ccxt.markets_reply ex = inr mkts /\
    first_book ex sym = inr b /\
    observe b = inr arr /\
    self = constructed urandom ex sym mkts arr.
Proof.
  rewrite init_unfold.
  destruct (ccxt.markets_reply ex) as [e|mkts]; [discriminate|].
  destruct (first_book ex sym) as [e|b]; [discriminate|].
  destruct (observe b) as [e|arr] eqn:Ho; [discriminate|].
  cbn [snd]. intros [= <-]. exists mkts, b, arr. repeat split. exact Ho.
Qed.

End Constructor.

(** X7: the constructor returns an environment exactly when
    [load_markets] answers and the order book fetched next reshapes; the
    environment then holds the markets, the symbol, [max_amount = 1], a
    fresh action space with that bound, a generator seeded from the
    system's entropy, and the observation of that book as its state. *)
Theorem init_succeeds_iff
    (urandom : Z) (ex : ccxt.Exchange) (sym : string) (self : Market.t) :
  snd (Market.__init__ urandom ex sym) = inr self <->
  exists mkts b arr,
    ccxt.markets_reply ex = inr mkts /\
    first_book ex sym = inr b /\
    observe b = inr arr /\
    self = Market.mk (opened ex sym) mkts sym 1 (OrderSpace.__init__ 1)
             (gym.mkBox [gym.Finite 0; gym.Finite 0; gym.Finite 0]
                        [gym.Inf; gym.Inf; gym.Inf])
             (Some (gym.seeding.mkRandomState (urandom mod 2 ^ 64)))
             (Some arr).
Proof.
  split.
  - apply init_success_inv.
  - rewrite init_unfold. intros (mkts & b & arr & -> & -> & -> & ->).
    reflexivity.
Qed.

Lemma init_succeeds_iff_witness :
  snd (Market.__init__ 0 (always book1) "BTC/USD")
  = inr (constructed 0 (always book1) "BTC/USD" []
           (np.Arr2 3 5 [[-1; -1; 1; 1; 1]; [5; 2; 3; 1; 4];
                         [9; 10; 11; 12; 13]]%Q)).
Proof.
  apply (proj2 (init_succeeds_iff 0 (always book1) "BTC/USD" _)).
  exists [], book1. eexists. repeat split.
Defined.

(** X8: an error raised by [load_markets], or by the first
    [fetch_order_book] once [load_markets] has answered, leaves the
    constructor as that same error, and no environment is returned; in
    the first case [fetch_order_book] is not invoked at all. *)
Theorem init_propagates_exchange_errors
    (urandom : Z) (ex : ccxt.Exchange) (sym : string) (e : exn) :
  ccxt.markets_reply ex = inl e \/
  (exists mkts, ccxt.markets_reply ex = inr mkts /\
                first_book ex sym = inl e) ->
  Market.__init__ urandom ex sym
  = (match ccxt.markets_reply ex with
     | inl _ => loaded ex
     | inr _ => opened ex sym
     end, inl e).
Proof.
  rewrite init_unfold. intros [-> | (mkts & -> & ->)]; reflexivity.
Qed.

Lemma init_propagates_exchange_errors_witness :
  Market.__init__ 0 broken "BTC/USD"
  = (match ccxt.markets_reply broken with
     | inl _ => loaded broken
     | inr _ => opened broken "BTC/USD"
     end, inl ExchangeError).
Proof.
  apply (init_propagates_exchange_errors 0 broken "BTC/USD" ExchangeError).
  left. reflexivity.
Defined.

(** X9: when the exchange's first order book has no bids or no asks, the
    constructor raises [AxisError] and returns no environment. *)
Theorem init_empty_side
    (urandom : Z) (ex : ccxt.Exchange) (sym : string)
    (mkts : list string) (b : ccxt.OrderBook) :
  ccxt.markets_reply ex = inr mkts -> first_book ex sym = inr b ->
  ccxt.bids b = [] \/ ccxt.asks b = [] ->
  snd (Market.__init__ urandom ex sym) = inl AxisError.
Proof.
  intros Hm Hf Hs. rewrite init_unfold, Hm, Hf.
  destruct Hs as [Hb|Ha];
    [rewrite (observe_no_bids b Hb) | rewrite (observe_no_asks b Ha)];
    reflexivity.
Qed.

Lemma init_empty_side_witness :
  snd (Market.__init__ 0 (always book_no_bids) "BTC/USD") = inl AxisError.
Proof.
  apply (init_empty_side 0 (always book_no_bids) "BTC/USD" [] book_no_bids).
  - reflexivity.
  - reflexivity.
  - left. reflexivity.
Defined.

(** X10: the observation a constructed environment holds lies outside
    the observation space it declares: every lower bound of the declared
    box is 0, while the first row of the stored array starts with the
    sign -1 of a bid. *)
Theorem observation_below_declared_bound
    (urandom : Z) (ex : ccxt.Exchange) (sym : string) (self : Market.t) :
  snd (Market.__init__ urandom ex sym) = inr self ->
  gym.low (Market.observation_space self)
  = [gym.Finite 0; gym.Finite 0; gym.Finite 0] /\
  exists arr row rest,
    Market.state self = Some arr /\ rows arr = ((-1)%Q :: row) :: rest.
Proof.
  intros H. apply init_success_inv in H.
  destruct H as (mkts & b & arr & _ & _ & Ho & ->).
  split; [reflexivity|]. exists arr. cbn [Market.state].
  destruct (observe_succeeds_inv b arr Ho) as (Hb & Ha & k & Hk).
  rewrite (observe_signed_columns k b Hb Ha Hk) in Ho.
  injection Ho as <-. cbn [rows]. rewrite Nat.add_comm. cbn [Nat.add seq map].
  unfold signed_columns.
  destruct (rev (ccxt.bids b)) as [|e l] eqn:Hr.
  - apply (f_equal (@rev (list Q))) in Hr. rewrite rev_involutive in Hr.
    contradiction.
  - cbn. eauto.
Qed.

Lemma observation_below_declared_bound_witness :
  gym.low (Market.observation_space
             (constructed 0 (always book1) "BTC/USD" []
                (np.Arr2 3 5 [[-1; -1; 1; 1; 1]; [5; 2; 3; 1; 4];
                              [9; 10; 11; 12; 13]]%Q)))
  = [gym.Finite 0; gym.Finite 0; gym.Finite 0] /\
  exists arr row rest,
    Market.state
      (constructed 0 (always book1) "BTC/USD" []
         (np.Arr2 3 5 [[-1; -1; 1; 1; 1]; [5; 2; 3; 1; 4];
                       [9; 10; 11; 12; 13]]%Q))
    = Some arr /\ rows arr = ((-1)%Q :: row) :: rest.
Proof.
  apply (observation_below_declared_bound 0 (always book1) "BTC/USD").
  reflexivity.
Defined.

(** ** Sampling, in full *)

Section SampleRun.

Lemma uniform_formula (g : np.random.RandomState) :
  exists u, (forall low high,
                np.random.in_float_range low && np.random.in_float_range high
                && np.random.in_float_range (high - low) = true ->
                np.random.uniform low high g
                = (advance g, inr (low + (high - low) * u)%Q)) /\
            (0 <= u)%Q /\ (u < 1)%Q.
Proof.
  destruct (random_sample_range g) as [u [E Hu]].
  exists u. split; [|exact Hu].
  intros low high Hr. unfold np.random.uniform, bind. now rewrite Hr, E.
Qed.

Lemma out_of_float_range (x : Q) :
  (np.random.float_limit <= x)%Q \/ (x <= - np.random.float_limit)%Q ->
  np.random.in_float_range x = false.
Proof.
  intros H. apply not_true_is_false. intros Hx.
  apply in_float_range_spec in Hx. destruct Hx as [H1 H2].
  destruct H as [H|H]; [apply (Qlt_not_le _ _ H2 H)|apply (Qlt_not_le _ _ H1 H)].
Qed.

(** One run of [sample].  What is drawn depends on the generator alone.
    With a bound that fits a double: five draws, five attributes, one
    list.  With any other bound: three draws, three attributes, and
    [OverflowError] from the uniform draw. *)
Lemma sample_run (g : np.random.RandomState) :
  exists po ty sd sg ua up,
    (forall self,
        np.random.in_float_range (OrderSpace.max_amount self) = true ->
        OrderSpace.sample (g, self)
        = ((np.random.mkRandomState (np.random.raw g) (5 + np.random.pos g),
            OrderSpace.mk (OrderSpace.max_amount self) (Some po) (Some ty)
              (Some sd) (Some (0 + (OrderSpace.max_amount self - 0) * ua)%Q)
              (Some (inject_Z sg * (1 - up))%Q)),
           inr (PyList [PyBool po; PyStr ty; PyStr sd;
                        PyFloat (0 + (OrderSpace.max_amount self - 0) * ua)%Q;
                        PyFloat (inject_Z sg * (1 - up))%Q]))) /\
    (forall self,
        np.random.in_float_range (OrderSpace.max_amount self) = false ->
        OrderSpace.sample (g, self)
        = ((np.random.mkRandomState (np.random.raw g) (3 + np.random.pos g),
            OrderSpace.mk (OrderSpace.max_amount self) (Some po) (Some ty)
              (Some sd) (OrderSpace.amount self) (OrderSpace.price self)),
           inl OverflowError)) /\
    (ty = "market"%string \/ ty = "limit"%string) /\
    ((sd = "buy"%string /\ sg = (-1)%Z) \/ (sd = "sell"%string /\ sg = 1%Z)) /\
    (0 <= ua)%Q /\ (ua < 1)%Q /\ (0 <= up)%Q /\ (up < 1)%Q.
Proof.
  destruct (choice_pair bool true false g) as [po [Epo _]].
  destruct (choice_pair string "market"%string "limit"%string (advance g))
    as [ty [Ety Hty]].
  destruct (choice_pair string "buy"%string "sell"%string
              (advance (advance g))) as [sd [Esd Hsd]].
  destruct (uniform_formula (advance (advance (advance g))))
    as [ua [Eua [Ha0 Ha1]]].
  destruct (random_sample_range (advance (advance (advance (advance g)))))
    as [up [Eup [Hu0 Hu1]]].
  exists po, ty, sd, (if String.eqb sd "buy" then (-1)%Z else 1%Z), ua, up.
  split; [|split; [|split; [exact Hty|split; [|auto]]]].
  - intros self Hr.
    rewrite <- range_from_zero in Hr.
    unfold OrderSpace.sample, bind, OrderSpace.draw, OrderSpace.setattr,
      modify, get, lift, ret.
    cbn [fst snd]. rewrite Epo. cbn [fst snd]. rewrite Ety. cbn [fst snd].
    rewrite Esd. cbn [fst snd OrderSpace.max_amount]. rewrite (Eua _ _ Hr).
    cbn [fst snd].
    destruct Hsd as [-> | ->];
      cbn [OrderSpace.getitem OrderSpace.side_sign
           String.eqb Ascii.eqb Bool.eqb fst snd];
      rewrite Eup; reflexivity.
  - intros self Hr.
    rewrite <- range_from_zero in Hr.
    unfold OrderSpace.sample, bind, OrderSpace.draw, OrderSpace.setattr,
      modify, get, lift, ret.
    cbn [fst snd]. rewrite Epo. cbn [fst snd]. rewrite Ety. cbn [fst snd].
    rewrite Esd. cbn [fst snd OrderSpace.max_amount].
    unfold np.random.uniform. rewrite Hr. reflexivity.
  - destruct Hsd as [-> | ->]; [left|right]; split; reflexivity.
Qed.

(** What construction and sampling can leave in a space: with a bound
    that does not fit a double, no amount and no price. *)
Lemma reachable_unset (self : OrderSpace.t) :
  reachable self ->
  np.random.in_float_range (OrderSpace.max_amount self) = false ->
  OrderSpace.amount self = None /\ OrderSpace.price self = None.
Proof.
  induction 1 as [m|g s Hs IH]; [split; reflexivity|].
  destruct (sample_run g) as (po & ty & sd & sg & ua & up & Ein & Eout & _).
  destruct (np.random.in_float_range (OrderSpace.max_amount s)) eqn:Er.
  - rewrite (Ein s Er). cbn [fst snd OrderSpace.max_amount]. congruence.
  - rewrite (Eout s Er). cbn [fst snd OrderSpace.amount OrderSpace.price].
    intros _. now apply IH.
Qed.

End SampleRun.

(** X11: with a [max_amount] that fits a double, [sample] never raises,
    whatever the generator holds: the lookup in [side_sign] always finds
    the sampled side.  It takes exactly five draws from the generator,
    leaves [max_amount] as it was, yields a type that is ['market'] or
    ['limit'] and a side that is ['buy'] or ['sell'], and a price that is
    never 0, also when the type is ['market']. *)
Theorem sample_never_raises (g : np.random.RandomState) (self : OrderSpace.t) :
  (- np.random.float_limit < OrderSpace.max_amount self)%Q ->
  (OrderSpace.max_amount self < np.random.float_limit)%Q ->
  exists po ty sd am pr,
    OrderSpace.sample (g, self)
    = ((np.random.mkRandomState (np.random.raw g) (5 + np.random.pos g),
        OrderSpace.mk (OrderSpace.max_amount self)
                      (Some po) (Some ty) (Some sd) (Some am) (Some pr)),
       inr (PyList [PyBool po; PyStr ty; PyStr sd; PyFloat am; PyFloat pr])) /\
    (ty = "market"%string \/ ty = "limit"%string) /\
    (sd = "buy"%string \/ sd = "sell"%string) /\
    ~ (pr == 0)%Q /\ (-1 <= pr)%Q /\ (pr <= 1)%Q.
Proof.
  intros Hlo Hhi.
  assert (Hr : np.random.in_float_range (OrderSpace.max_amount self) = true)
    by (apply in_float_range_spec; now split).
  destruct (sample_run g)
    as (po & ty & sd & sg & ua & up & E & _ & Hty & Hsd & _ & _ & Hu0 & Hu1).
  exists po, ty, sd. do 2 eexists. split; [exact (E self Hr)|].
  split; [exact Hty|].
  destruct Hsd as [[-> ->] | [-> ->]];
    (split; [auto|]);
    change (inject_Z (-1)) with (-1)%Q; change (inject_Z 1) with 1%Q;
    (split; [intros H0|split]); nra.
Qed.

Lemma sample_never_raises_witness :
  exists po ty sd am pr,
    OrderSpace.sample (generator1, space1)
    = ((np.random.mkRandomState (np.random.raw generator1)
                                (5 + np.random.pos generator1),
        OrderSpace.mk (OrderSpace.max_amount space1)
                      (Some po) (Some ty) (Some sd) (Some am) (Some pr)),
       inr (PyList [PyBool po; PyStr ty; PyStr sd; PyFloat am; PyFloat pr])) /\
    (ty = "market"%string \/ ty = "limit"%string) /\
    (sd = "buy"%string \/ sd = "sell"%string) /\
    ~ (pr == 0)%Q /\ (-1 <= pr)%Q /\ (pr <= 1)%Q.
Proof.
  apply (sample_never_raises generator1 space1); reflexivity.
Defined.

(** X12: with a negative or zero [max_amount] that fits a double, the
    sampled amount lies between [max_amount] and 0: the bounds of the
    uniform draw are taken as given, not put in order. *)
Theorem sample_nonpositive_bound
    (g : np.random.RandomState) (self : OrderSpace.t) :
  (- np.random.float_limit < OrderSpace.max_amount self)%Q ->
  (OrderSpace.max_amount self <= 0)%Q ->
  exists po ty sd am pr,
    snd (OrderSpace.sample (g, self))
    = inr (PyList [PyBool po; PyStr ty; PyStr sd; PyFloat am; PyFloat pr]) /\
    (OrderSpace.max_amount self <= am)%Q /\ (am <= 0)%Q.
Proof.
  intros Hlo Hmax.
  assert (Hr : np.random.in_float_range (OrderSpace.max_amount self) = true).
  { apply in_float_range_spec. pose proof float_limit_pos.
    split; [exact Hlo|lra]. }
  destruct (sample_run g)
    as (po & ty & sd & sg & ua & up & E & _ & _ & _ & Ha0 & Ha1 & _ & _).
  exists po, ty, sd. do 2 eexists. rewrite (E self Hr).
  split; [reflexivity|]. split; nra.
Qed.

Lemma sample_nonpositive_bound_witness :
  exists po ty sd am pr,
    snd (OrderSpace.sample (generator1, OrderSpace.__init__ (-2)))
    = inr (PyList [PyBool po; PyStr ty; PyStr sd; PyFloat am; PyFloat pr]) /\
    (-2 <= am)%Q /\ (am <= 0)%Q.
Proof.
  apply (sample_nonpositive_bound generator1 (OrderSpace.__init__ (-2))).
  - reflexivity.
  - simpl. discriminate.
Defined.

(** Once its bound no longer fits a double, a space that holds an amount
    keeps it through [sample], which a freshly built space cannot show:
    the attributes of an arbitrary record do matter. *)
Example sample_keeps_stale_amount :
  OrderSpace.amount
    (snd (fst (OrderSpace.sample
                 (generator1,
                  OrderSpace.mk (inject_Z (2 ^ 1024)) None None None
                                (Some (1 # 2)) None))))
  = Some (1 # 2) /\
  OrderSpace.amount (snd (fst (OrderSpace.sample (generator1, huge_space))))
  = None.
Proof. split; vm_compute; reflexivity. Qed.

(** X13: [sample] does not depend on the attributes earlier calls left
    behind: on every space that construction followed by any number of
    [sample] calls can produce, it behaves, on the same generator, as on
    a freshly built space with the same [max_amount]. *)
Theorem sample_forgets_previous (g : np.random.RandomState) (self : OrderSpace.t) :
  reachable self ->
  OrderSpace.sample (g, self)
  = OrderSpace.sample (g, OrderSpace.__init__ (OrderSpace.max_amount self)).
Proof.
  intros Hreach.
  destruct (sample_run g) as (po & ty & sd & sg & ua & up & Ein & Eout & _).
  destruct (np.random.in_float_range (OrderSpace.max_amount self)) eqn:Er.
  - rewrite (Ein self Er), (Ein (OrderSpace.__init__ _) Er). reflexivity.
  - destruct (reachable_unset self Hreach Er) as [Ha Hp].
    rewrite (Eout self Er), (Eout (OrderSpace.__init__ _) Er), Ha, Hp.
    reflexivity.
Qed.

Lemma sample_forgets_previous_witness :
  OrderSpace.sample
    (generator1,
     snd (fst (OrderSpace.sample (generator1, OrderSpace.__init__ 1))))
  = OrderSpace.sample
      (generator1,
       OrderSpace.__init__
         (OrderSpace.max_amount
            (snd (fst (OrderSpace.sample
                         (generator1, OrderSpace.__init__ 1)))))).
Proof.
  apply (sample_forgets_previous generator1).
  apply reach_sample, reach_init.
Defined.

(** X21: with a [max_amount] that does not fit a double (2^1024, say),
    [sample] raises [OverflowError] from the uniform draw: three draws
    have been taken, [place_order], [type] and [side] have been
    assigned, [amount] and [price] are what they were. *)
Theorem sample_overflow
    (g : np.random.RandomState) (self : OrderSpace.t) :
  (np.random.float_limit <= OrderSpace.max_amount self)%Q \/
  (OrderSpace.max_amount self <= - np.random.float_limit)%Q ->
  exists po ty sd,
    OrderSpace.sample (g, self)
    = ((np.random.mkRandomState (np.random.raw g) (3 + np.random.pos g),
        OrderSpace.mk (OrderSpace.max_amount self) (Some po) (Some ty)
                      (Some sd) (OrderSpace.amount self)
                      (OrderSpace.price self)),
       inl OverflowError).
Proof.
  intros H. apply out_of_float_range in H.
  destruct (sample_run g) as (po & ty & sd & sg & ua & up & _ & E & _).
  exists po, ty, sd. exact (E self H).
Qed.

Lemma sample_overflow_witness :
  exists po ty sd,
    OrderSpace.sample (generator1, huge_space)
    = ((np.random.mkRandomState (np.random.raw generator1)
                                (3 + np.random.pos generator1),
        OrderSpace.mk (OrderSpace.max_amount huge_space) (Some po) (Some ty)
                      (Some sd) (OrderSpace.amount huge_space)
                      (OrderSpace.price huge_space)),
       inl OverflowError).
Proof.
  apply (sample_overflow generator1 huge_space).
  left. vm_compute. discriminate.
Defined.

(** X14: an action sampled from the action space of any environment the
    constructor returns has an amount between 0 and 1. *)
Theorem sample_of_constructed
    (urandom : Z) (ex : ccxt.Exchange) (sym : string) (self : Market.t)
    (g : np.random.RandomState) :
  snd (Market.__init__ urandom ex sym) = inr self ->
  exists po ty sd am pr,
    snd (OrderSpace.sample (g, Market.action_space self))
    = inr (PyList [PyBool po; PyStr ty; PyStr sd; PyFloat am; PyFloat pr]) /\
    (0 <= am)%Q /\ (am <= 1)%Q.
Proof.
  intros H. apply init_success_inv in H.
  destruct H as (mkts & b & arr & _ & _ & _ & ->).
  cbn [constructed Market.action_space].
  destruct (sample_run g)
    as (po & ty & sd & sg & ua & up & E & _ & _ & _ & Ha0 & Ha1 & _ & _).
  exists po, ty, sd. do 2 eexists.
  rewrite (E (OrderSpace.__init__ 1) eq_refl). split; [reflexivity|].
  cbn [OrderSpace.__init__ OrderSpace.max_amount]. split; nra.
Qed.

Lemma sample_of_constructed_witness :
  exists po ty sd am pr,
    snd (OrderSpace.sample
           (generator1,
            Market.action_space
              (constructed 0 (always book1) "BTC/USD" []
                 (np.Arr2 3 5 [[-1; -1; 1; 1; 1]; [5; 2; 3; 1; 4];
                               [9; 10; 11; 12; 13]]%Q))))
    = inr (PyList [PyBool po; PyStr ty; PyStr sd; PyFloat am; PyFloat pr]) /\
    (0 <= am)%Q /\ (am <= 1)%Q.
Proof.
  apply (sample_of_constructed 0 (always book1) "BTC/USD" _ generator1).
  reflexivity.
Defined.

(** ** Seeding again *)

Section Reseeding.

Lemma seed_in_range_run (urandom s : Z) (self : Market.t) :
  (0 <= s < 2 ^ 64)%Z ->
  Market._seed urandom (Some s) self
  = (Market.set_np_random (gym.seeding.mkRandomState s) self, inr [s]).
Proof.
  intros Hs. unfold Market._seed, bind, lift, modify, ret.
  cbn [gym.seeding.np_random].
  destruct (Z.ltb_spec s 0) as [Hneg|_]; [lia|].
  cbn [gym.seeding.create_seed fst snd].
  now rewrite Z.mod_small by exact Hs.
Qed.

Lemma seed_used (urandom : Z) (seed : option Z) (self : Market.t) (used : Z) :
  snd (Market._seed urandom seed self) = inr [used] ->
  (0 <= used < 2 ^ 64)%Z /\
  Market.np_random (fst (Market._seed urandom seed self))
  = Some (gym.seeding.mkRandomState used).
Proof.
  unfold Market._seed, bind, lift, modify, ret.
  destruct seed as [z|]; cbn [gym.seeding.np_random];
    [destruct (Z.ltb_spec z 0) as [Hneg|_]; [discriminate|]|];
    cbn [gym.seeding.create_seed fst snd]; intros [= <-];
    (split; [apply Z.mod_pos_bound; lia|reflexivity]).
Qed.

End Reseeding.

(** X15: the seed [_seed] returns reproduces the generator.  Whenever
    [_seed] returns [[used]], that value lies in [[0, 2^64)], the
    generator now held in [self.np_random] is the one derived from it,
    and passing it to [_seed] on any environment installs that same
    generator and returns [[used]] again. *)
Theorem seed_reproducible
    (urandom : Z) (seed : option Z) (self : Market.t) (used : Z) :
  snd (Market._seed urandom seed self) = inr [used] ->
  (0 <= used < 2 ^ 64)%Z /\
  Market.np_random (fst (Market._seed urandom seed self))
  = Some (gym.seeding.mkRandomState used) /\
  forall urandom' self',
    Market._seed urandom' (Some used) self'
    = (Market.set_np_random (gym.seeding.mkRandomState used) self',
       inr [used]).
Proof.
  intros H. destruct (seed_used urandom seed self used H) as [Hr Hg].
  split; [exact Hr|]. split; [exact Hg|].
  intros urandom' self'. now apply seed_in_range_run.
Qed.

Lemma seed_reproducible_witness :
  (0 <= 0 < 2 ^ 64)%Z /\
  Market.np_random (fst (Market._seed 5 (Some (2 ^ 64)%Z) env1))
  = Some (gym.seeding.mkRandomState 0) /\
  forall urandom' self',
    Market._seed urandom' (Some 0%Z) self'
    = (Market.set_np_random (gym.seeding.mkRandomState 0) self', inr [0%Z]).
Proof.
  apply (seed_reproducible 5 (Some (2 ^ 64)%Z) env1 0). reflexivity.
Defined.

(** X16: [_seed] touches no attribute other than [self.np_random]:
    the exchange, the markets, the symbol, [max_amount], both spaces and
    the state are what they were, whatever the seed. *)
Theorem seed_frame (urandom : Z) (seed : option Z) (self : Market.t) :
  let self' := fst (Market._seed urandom seed self) in
  Market.exchange self' = Market.exchange self /\
  Market.markets self' = Market.markets self /\
  Market.symbol self' = Market.symbol self /\
  Market.max_amount self' = Market.max_amount self /\
  Market.action_space self' = Market.action_space self /\
  Market.observation_space self' = Market.observation_space self /\
  Market.state self' = Market.state self.
Proof.
  cbv zeta. unfold Market._seed, bind, lift, modify, ret.
  destruct (gym.seeding.np_random urandom seed); repeat split.
Qed.

(** X17: a negative integer seed is rejected: [_seed] raises the seeding
    error and the environment, its previous generator included, is left
    exactly as it was. *)
Theorem seed_negative_rejected (urandom z : Z) (self : Market.t) :
  (z < 0)%Z ->
  Market._seed urandom (Some z) self = (self, inl GymError).
Proof.
  intros Hz. unfold Market._seed, bind, lift.
  cbn [gym.seeding.np_random].
  destruct (Z.ltb_spec z 0) as [_|Hpos]; [reflexivity|lia].
Qed.

Lemma seed_negative_rejected_witness :
  Market._seed 0 (Some (-5)%Z) env2 = (env2, inl GymError).
Proof.
  apply (seed_negative_rejected 0 (-5) env2). lia.
Defined.

(** ** Rendering *)

(** X18: every render mode the environment advertises in its [metadata]
    is unimplemented: asking [_render] for it raises
    [NotImplementedError] and changes nothing. *)
Theorem advertised_modes_unimplemented
    (key mode : string) (modes : list string) (close : bool)
    (self : Market.t) :
  In (key, modes) Market.metadata -> In mode modes ->
  Market._render mode close self = (self, inl NotImplementedError).
Proof.
  intros [[= <- <-]|[]] [<-|[<-|[]]]; reflexivity.
Qed.

Lemma advertised_modes_unimplemented_witness :
  Market._render "human" false env1 = (env1, inl NotImplementedError).
Proof.
  apply (advertised_modes_unimplemented
           "render.modes" "human" ["human"; "ansi"]%string false env1).
  - left. reflexivity.
  - left. reflexivity.
Defined.

(** X19: [_render] never returns: for every mode, and whether or not
    [close] is set, it raises, and the environment is unchanged. *)
Theorem render_always_raises (mode : string) (close : bool) (self : Market.t) :
  exists e, Market._render mode close self = (self, inl e).
Proof.
  unfold Market._render.
  destruct (String.eqb mode "ansi"); [eexists; reflexivity|].
  destruct (String.eqb mode "human"); eexists; reflexivity.
Qed.

(** ** Where the signs and the prices end up *)

Section RowsAnyWidth.

Lemma nth_map_seq (A : Type) (f : nat -> A) (d : A) (n i : nat) :
  i < n -> nth i (map f (seq 0 n)) d = f i.
Proof.
  intros Hi. rewrite (nth_indep _ d (f 0)) by now rewrite length_map, length_seq.
  rewrite (map_nth f (seq 0 n) 0 i). now rewrite seq_nth.
Qed.

Lemma last_of_reversed (k : nat) (c : Q) (e : list Q) :
  length e = k -> 0 < k -> nth k (c :: rev e) 0%Q = price e.
Proof.
  intros He Hk. destruct k as [|k]; [lia|]. cbn [nth].
  rewrite rev_nth by lia. unfold price. f_equal. lia.
Qed.

End RowsAnyWidth.

(** X20: whatever number [k >= 1] of values the entries hold, the first
    row of the observation is the sign row (-1 for each bid, then +1 for
    each ask) and its last row is the price row: the first value of each
    entry, the bids from last to first, then the asks. *)
Theorem reset_sign_and_price_rows
    (self : Market.t) (b : ccxt.OrderBook) (k : nat) :
  next_book self = inr b ->
  ccxt.bids b <> [] -> ccxt.asks b <> [] -> uniform_width k b -> 0 < k ->
  exists arr,
    snd (Market._reset self) = inr arr /\
    nth 0 (rows arr) []
    = repeat (-1)%Q (length (ccxt.bids b))
      ++ repeat 1%Q (length (ccxt.asks b)) /\
    nth k (rows arr) []
    = rev (map price (ccxt.bids b)) ++ map price (ccxt.asks b).
Proof.
  intros Hn Hb Ha Hk Hpos. eexists.
  rewrite (reset_factor self b Hn), (observe_signed_columns k b Hb Ha Hk).
  split; [reflexivity|]. cbn [snd rows].
  rewrite !nth_map_seq by lia. unfold signed_columns.
  rewrite !column_app, !column_map. cbn [nth].
  rewrite !map_const, length_rev. split; [reflexivity|].
  destruct Hk as [Fb Fa]. rewrite Forall_forall in Fb, Fa.
  rewrite map_rev. f_equal; [f_equal|]; apply map_ext_in; intros e He;
    apply last_of_reversed; auto.
Qed.

Lemma reset_sign_and_price_rows_witness :
  exists arr,
    snd (Market._reset (probe book3)) = inr arr /\
    nth 0 (rows arr) [] = repeat (-1)%Q 1 ++ repeat 1%Q 1 /\
    nth 3 (rows arr) []
    = rev (map price (ccxt.bids book3)) ++ map price (ccxt.asks book3).
Proof.
  apply (reset_sign_and_price_rows (probe book3) book3 3).
  - reflexivity.
  - discriminate.
  - discriminate.
  - split; repeat constructor.
  - lia.
Defined.
